(** * update_notifier: a shallow embedding of [src/update_notifier.py]

    The repository is one class, [UpdateNotifier], whose single public
    method [check_for_update] reads a throttle file, asks a remote package
    feed for the latest version of a package, asks the local distribution
    registry for the installed one, compares both and prints a hint.

    The embedding follows the Python text method by method.  Everything
    the class reaches outside of itself (the feed service, the credential
    store, the distribution registry, the clock, the file system) is a
    field of the record [World]; the mutable things (the console, the
    throttle file, the memoised feed client) are fields of [State];
    exceptions are values of [exn] threaded through a state-and-error
    monad [M].

    Python strings are modelled as [string], one character per code point
    below 256; [print] always succeeds. *)

From Stdlib Require Import String Ascii List ZArith NArith Bool Lia.
Import ListNotations.

Open Scope string_scope.
Open Scope Z_scope.

(** ** Characters and strings *)

Module Str.

(** [str.isspace] on code points below 256: TAB..CR, FS..US, SPACE, NEL
    and NBSP. *)
Definition isspace (c : ascii) : bool :=
  let n := N_of_ascii c in
  (((9 <=? n) && (n <=? 13)) || ((28 <=? n) && (n <=? 32))
   || (n =? 133) || (n =? 160))%N.

(** [[0-9]], and [\d] below code point 256. *)
Definition isdigit (c : ascii) : bool :=
  let n := N_of_ascii c in ((48 <=? n) && (n <=? 57))%N.

Definition digit_val (c : ascii) : Z := Z.of_N (N_of_ascii c) - 48.

Definition digit_chr (d : Z) : ascii := ascii_of_N (Z.to_N (d + 48)).

Fixpoint lstrip (s : string) : string :=
  match s with
  | String c r => if isspace c then lstrip r else s
  | EmptyString => EmptyString
  end.

Fixpoint rstrip (s : string) : string :=
  match s with
  | EmptyString => EmptyString
  | String c r =>
      match rstrip r with
      | EmptyString => if isspace c then EmptyString else String c EmptyString
      | r' => String c r'
      end
  end.

(** [str.strip()] without argument. *)
Definition strip (s : string) : string := rstrip (lstrip s).

Fixpoint all_space (s : string) : bool :=
  match s with
  | EmptyString => true
  | String c r => isspace c && all_space r
  end.

(** ASCII lower-casing, as [re.IGNORECASE] and [str.lower] act on the
    letters the version pattern mentions. *)
Definition lower (c : ascii) : ascii :=
  let n := N_of_ascii c in
  if ((65 <=? n) && (n <=? 90))%N then ascii_of_N (n + 32) else c.

Fixpoint lower_string (s : string) : string :=
  match s with
  | EmptyString => EmptyString
  | String c r => String (lower c) (lower_string r)
  end.

(** [int(s)] on a string of decimal digits. *)
Fixpoint int_acc (acc : Z) (s : string) : Z :=
  match s with
  | EmptyString => acc
  | String c r => int_acc (10 * acc + digit_val c) r
  end.

Definition int (s : string) : Z := int_acc 0 s.

(** Code-point order on strings, Python's [<] on [str]. *)
Fixpoint compare (a b : string) : comparison :=
  match a, b with
  | EmptyString, EmptyString => Eq
  | EmptyString, String _ _ => Lt
  | String _ _, EmptyString => Gt
  | String x a', String y b' =>
      match N.compare (N_of_ascii x) (N_of_ascii y) with
      | Eq => compare a' b'
      | o => o
      end
  end.

Definition nl : string := String (ascii_of_nat 10) EmptyString.

End Str.

(** ** Backtracking matchers

    The two patterns the program depends on (the [%Y-%m-%d] format of
    [strptime] and the version pattern of [packaging]) are regular
    expressions matched by a backtracking engine.  A matcher returns every
    way of matching a prefix of its input, in the order the engine tries
    them; the engine's answer is the head of the list. *)

Module Re.

Definition matcher (A : Type) : Type := string -> list (A * string).

Definition ret {A} (a : A) : matcher A := fun s => [(a, s)].

Definition bind {A B} (p : matcher A) (f : A -> matcher B) : matcher B :=
  fun s => flat_map (fun ar => f (fst ar) (snd ar)) (p s).

Definition fmap {A B} (f : A -> B) (p : matcher A) : matcher B :=
  fun s => map (fun ar => (f (fst ar), snd ar)) (p s).

(** [p|q] *)
Definition alt {A} (p q : matcher A) : matcher A :=
  fun s => (p s ++ q s)%list.

(** [p?], greedy *)
Definition opt {A} (p : matcher A) : matcher (option A) :=
  alt (fmap Some p) (ret None).

(** one character of a class *)
Definition cls (f : ascii -> bool) : matcher ascii :=
  fun s =>
    match s with
    | String c r => if f c then [(c, r)] else []
    | EmptyString => []
    end.

Definition chr (c : ascii) : matcher ascii := cls (Ascii.eqb c).

(** a literal, compared case-insensitively *)
Fixpoint lit (w : string) : matcher unit :=
  match w with
  | EmptyString => ret tt
  | String c w' =>
      bind (cls (fun x => Ascii.eqb (Str.lower x) (Str.lower c)))
           (fun _ => lit w')
  end.

(** [[class]*], greedy: the longest run first, then each shorter one. *)
Fixpoint many (f : ascii -> bool) (s : string) : list (string * string) :=
  match s with
  | String c r =>
      if f c
      then (map (fun mr => (String c (fst mr), snd mr)) (many f r)
              ++ [(EmptyString, s)])%list
      else [(EmptyString, s)]
  | EmptyString => [(EmptyString, s)]
  end.

(** [[class]+], greedy *)
Definition many1 (f : ascii -> bool) : matcher string :=
  bind (cls f) (fun c => fmap (String c) (many f)).

(** [(?:p)*], greedy, for a [p] that consumes at least one character:
    [fuel] bounds the number of iterations. *)
Fixpoint star_fuel {A} (fuel : nat) (p : matcher A) : matcher (list A) :=
  match fuel with
  | O => ret []
  | S n =>
      alt (bind p (fun a => fmap (cons a) (star_fuel n p))) (ret [])
  end.

Definition star {A} (p : matcher A) : matcher (list A) :=
  fun s => star_fuel (String.length s) p s.

End Re.

(** ** Calendar dates ([datetime.date])

    The proleptic Gregorian calendar of CPython's [datetime] module. *)

Record date : Type := mkdate { year : Z; month : Z; day : Z }.

Definition MINYEAR : Z := 1.
Definition MAXYEAR : Z := 9999.

Definition _is_leap (y : Z) : bool :=
  (y mod 4 =? 0) && (negb (y mod 100 =? 0) || (y mod 400 =? 0)).

Definition _DAYS_IN_MONTH : list Z :=
  [-1; 31; 28; 31; 30; 31; 30; 31; 31; 30; 31; 30; 31].

Definition _DAYS_BEFORE_MONTH : list Z :=
  [-1; 0; 31; 59; 90; 120; 151; 181; 212; 243; 273; 304; 334].

Definition _days_in_month (y m : Z) : Z :=
  if (m =? 2) && _is_leap y then 29
  else nth (Z.to_nat m) _DAYS_IN_MONTH 0.

Definition _days_before_year (y : Z) : Z :=
  let y := y - 1 in y * 365 + y / 4 - y / 100 + y / 400.

Definition _days_before_month (y m : Z) : Z :=
  nth (Z.to_nat m) _DAYS_BEFORE_MONTH 0
  + (if (2 <? m) && _is_leap y then 1 else 0).

(** [_check_date_fields]: what the [date] constructor accepts. *)
Definition valid_date (d : date) : bool :=
  (MINYEAR <=? year d) && (year d <=? MAXYEAR)
  && (1 <=? month d) && (month d <=? 12)
  && (1 <=? day d) && (day d <=? _days_in_month (year d) (month d)).

(** [date.toordinal] *)
Definition toordinal (d : date) : Z :=
  _days_before_year (year d) + _days_before_month (year d) (month d) + day d.

(** [(a - b).days] *)
Definition days_between (a b : date) : Z := toordinal a - toordinal b.

(** The day after [d] on the calendar. *)
Definition next_day (d : date) : date :=
  if day d <? _days_in_month (year d) (month d)
  then mkdate (year d) (month d) (day d + 1)
  else if month d <? 12 then mkdate (year d) (month d + 1) 1
  else mkdate (year d + 1) 1 1.

(** *** [strftime("%Y-%m-%d")]

    Zero-padded fields; the C library agrees on the year for every year
    from 1000 on. *)
Definition pad2 (n : Z) : string :=
  String (Str.digit_chr (n / 10)) (String (Str.digit_chr (n mod 10)) "").

Definition pad4 (n : Z) : string :=
  String (Str.digit_chr (n / 1000))
    (String (Str.digit_chr (n / 100 mod 10)) (pad2 (n mod 100))).

Definition strftime (d : date) : string :=
  pad4 (year d) ++ "-" ++ pad2 (month d) ++ "-" ++ pad2 (day d).

(** *** [strptime(s, "%Y-%m-%d")]

    [_strptime] turns the format into the pattern
    [(?P<Y>\d\d\d\d)-(?P<m>1[0-2]|0[1-9]|[1-9])-(?P<d>3[0-1]|[1-2]\d|0[1-9]|[1-9]| [1-9])],
    matches it at the start of the data, refuses data left over after the
    match, and builds the date, which checks the fields. *)

Module Strptime.
Import Re.

Definition in_range (lo hi : ascii) (c : ascii) : bool :=
  ((N_of_ascii lo <=? N_of_ascii c) && (N_of_ascii c <=? N_of_ascii hi))%N.

Definition two (f g : ascii -> bool) : matcher Z :=
  bind (cls f) (fun a => bind (cls g) (fun b =>
    ret (10 * Str.digit_val a + Str.digit_val b))).

Definition one (f : ascii -> bool) : matcher Z :=
  fmap Str.digit_val (cls f).

Definition re_Y : matcher Z :=
  bind (cls Str.isdigit) (fun a => bind (cls Str.isdigit) (fun b =>
  bind (cls Str.isdigit) (fun c => bind (cls Str.isdigit) (fun d =>
    ret (1000 * Str.digit_val a + 100 * Str.digit_val b
         + 10 * Str.digit_val c + Str.digit_val d))))).

Definition re_m : matcher Z :=
  alt (two (Ascii.eqb "1") (in_range "0" "2"))
 (alt (two (Ascii.eqb "0") (in_range "1" "9"))
      (one (in_range "1" "9"))).

Definition re_d : matcher Z :=
  alt (two (Ascii.eqb "3") (in_range "0" "1"))
 (alt (two (in_range "1" "2") Str.isdigit)
 (alt (two (Ascii.eqb "0") (in_range "1" "9"))
 (alt (one (in_range "1" "9"))
      (bind (chr " ") (fun _ => one (in_range "1" "9")))))).

(** the pattern after the year *)
Definition after_Y (y : Z) : matcher date :=
  bind (chr "-") (fun _ =>
  bind re_m (fun m => bind (chr "-") (fun _ =>
  bind re_d (fun d => ret (mkdate y m d))))).

Definition format_regex : matcher date := bind re_Y after_Y.

(** [None] stands for the [ValueError] that [strptime] raises. *)
Definition strptime (s : string) : option date :=
  match format_regex s with
  | [] => None                                   (* does not match format *)
  | (d, rest) :: _ =>
      match rest with
      | EmptyString => if valid_date d then Some d else None
      | String _ _ => None                       (* unconverted data remains *)
      end
  end.

End Strptime.

(** ** Versions ([packaging.version])

    [version.parse] is [Version(...)]: the string is matched against
    [VERSION_PATTERN] (anchored, case-insensitive, surrounded by [\s*]),
    the groups are normalised by [_parse_letter_version] and
    [_parse_local_version], and two versions are ordered by the tuples
    that [_cmpkey] builds.  A string the pattern rejects raises
    [InvalidVersion]. *)

Module Version.
Import Re.

(** The normalised pre-release letters; as strings, a < b < rc. *)
Inductive pre_letter : Type := PreA | PreB | PreRC.

(** One dot-separated part of a local version label. *)
Inductive local_part : Type :=
| LInt (n : Z)
| LStr (s : string).

Record t : Type := mk {
  epoch : Z;
  release : list Z;
  pre : option (pre_letter * Z);
  post : option Z;
  dev : option Z;
  local : option (list local_part)
}.

Definition is_sep (c : ascii) : bool :=
  Ascii.eqb c "-" || Ascii.eqb c "_" || Ascii.eqb c ".".

Definition is_alnum (c : ascii) : bool :=
  let n := N_of_ascii (Str.lower c) in
  Str.isdigit c || ((97 <=? n) && (n <=? 122))%N.

(** [[-_\.]?] *)
Definition sep : matcher (option ascii) := opt (cls is_sep).

(** [[0-9]+], read by [int] *)
Definition number : matcher Z := fmap Str.int (many1 Str.isdigit).

(** [([0-9]+)?], a missing number reads as 0 *)
Definition number_opt : matcher Z :=
  fmap (fun o => match o with Some n => n | None => 0 end) (opt number).

Definition word {A} (w : string) (a : A) : matcher A :=
  fmap (fun _ => a) (lit w).

(** [(?:(?P<epoch>[0-9]+)!)?] *)
Definition re_epoch : matcher Z :=
  fmap (fun o => match o with Some n => n | None => 0 end)
       (opt (bind number (fun n => bind (chr "!") (fun _ => ret n)))).

(** release: [[0-9]+], then any number of groups [\.[0-9]+] *)
Definition re_release : matcher (list Z) :=
  bind number (fun n =>
    fmap (cons n) (star (bind (chr ".") (fun _ => number)))).

(** [alpha|a|beta|b|preview|pre|c|rc], normalised *)
Definition re_pre_l : matcher pre_letter :=
  alt (word "alpha" PreA) (alt (word "a" PreA)
 (alt (word "beta" PreB) (alt (word "b" PreB)
 (alt (word "preview" PreRC) (alt (word "pre" PreRC)
 (alt (word "c" PreRC) (word "rc" PreRC))))))).

Definition re_pre : matcher (option (pre_letter * Z)) :=
  opt (bind sep (fun _ => bind re_pre_l (fun l =>
       bind sep (fun _ => bind number_opt (fun n => ret (l, n)))))).

(** [-N], or [post|rev|r] with an optional number *)
Definition re_post : matcher (option Z) :=
  opt (alt (bind (chr "-") (fun _ => number))
           (bind sep (fun _ =>
            bind (alt (lit "post") (alt (lit "rev") (lit "r"))) (fun _ =>
            bind sep (fun _ => number_opt))))).

Definition re_dev : matcher (option Z) :=
  opt (bind sep (fun _ => bind (lit "dev") (fun _ =>
       bind sep (fun _ => number_opt)))).

(** [_parse_local_version] on one part *)
Definition local_part_of (s : string) : local_part :=
  if forallb Str.isdigit (list_ascii_of_string s)
  then LInt (Str.int s) else LStr (Str.lower_string s).

(** local, optional: [\+], [[a-z0-9]+], then any number of groups
    [[-_\.][a-z0-9]+] *)
Definition re_local : matcher (option (list local_part)) :=
  opt (bind (chr "+") (fun _ =>
       bind (many1 is_alnum) (fun p =>
       bind (star (bind (cls is_sep) (fun _ => many1 is_alnum))) (fun ps =>
       ret (map local_part_of (p :: ps)))))).

(** end of the string *)
Definition eos : matcher unit :=
  fun s => match s with EmptyString => [(tt, s)] | String _ _ => [] end.

Definition _regex : matcher t :=
  bind (many Str.isspace) (fun _ =>
  bind (opt (lit "v")) (fun _ =>
  bind re_epoch (fun e =>
  bind re_release (fun r =>
  bind re_pre (fun p =>
  bind re_post (fun po =>
  bind re_dev (fun d =>
  bind re_local (fun l =>
  bind (many Str.isspace) (fun _ =>
  bind eos (fun _ => ret (mk e r p po d l))))))))))).

(** [None] stands for [InvalidVersion]. *)
Definition parse (s : string) : option t :=
  match _regex s with
  | [] => None
  | (v, _) :: _ => Some v
  end.

(** *** The comparison key *)

Inductive ext (A : Type) : Type :=
| NegativeInfinity
| Fin (a : A)
| Infinity.
Arguments NegativeInfinity {A}.
Arguments Fin {A} a.
Arguments Infinity {A}.

Fixpoint dropwhile_zero (l : list Z) : list Z :=
  match l with
  | x :: r => if x =? 0 then dropwhile_zero r else l
  | [] => []
  end.

Record key : Type := mkkey {
  k_epoch : Z;
  k_release : list Z;
  k_pre : ext (pre_letter * Z);
  k_post : ext Z;
  k_dev : ext Z;
  k_local : ext (list local_part)
}.

Definition _cmpkey (v : t) : key :=
  mkkey (epoch v)
        (rev (dropwhile_zero (rev (release v))))
        (match pre v, post v, dev v with
         | None, None, Some _ => NegativeInfinity
         | None, _, _ => Infinity
         | Some p, _, _ => Fin p
         end)
        (match post v with None => NegativeInfinity | Some n => Fin n end)
        (match dev v with None => Infinity | Some n => Fin n end)
        (match local v with None => NegativeInfinity | Some l => Fin l end).

(** Python's order on tuples is lexicographic. *)
Definition then_ (c d : comparison) : comparison :=
  match c with Eq => d | _ => c end.

Definition ext_compare {A} (cmp : A -> A -> comparison) (x y : ext A)
  : comparison :=
  match x, y with
  | NegativeInfinity, NegativeInfinity => Eq
  | NegativeInfinity, _ => Lt
  | _, NegativeInfinity => Gt
  | Infinity, Infinity => Eq
  | Infinity, _ => Gt
  | _, Infinity => Lt
  | Fin a, Fin b => cmp a b
  end.

Fixpoint list_compare {A} (cmp : A -> A -> comparison) (a b : list A)
  : comparison :=
  match a, b with
  | [], [] => Eq
  | [], _ :: _ => Lt
  | _ :: _, [] => Gt
  | x :: a', y :: b' => then_ (cmp x y) (list_compare cmp a' b')
  end.

Definition letter_rank (l : pre_letter) : Z :=
  match l with PreA => 0 | PreB => 1 | PreRC => 2 end.

Definition pre_compare (p q : pre_letter * Z) : comparison :=
  then_ (Z.compare (letter_rank (fst p)) (letter_rank (fst q)))
        (Z.compare (snd p) (snd q)).

(** a number is keyed above every word: [_cmpkey] pairs a word with
    [NegativeInfinity] *)
Definition local_part_compare (a b : local_part) : comparison :=
  match a, b with
  | LInt i, LInt j => Z.compare i j
  | LStr s, LStr u => Str.compare s u
  | LStr _, LInt _ => Lt
  | LInt _, LStr _ => Gt
  end.

Definition key_compare (a b : key) : comparison :=
  then_ (Z.compare (k_epoch a) (k_epoch b))
 (then_ (list_compare Z.compare (k_release a) (k_release b))
 (then_ (ext_compare pre_compare (k_pre a) (k_pre b))
 (then_ (ext_compare Z.compare (k_post a) (k_post b))
 (then_ (ext_compare Z.compare (k_dev a) (k_dev b))
        (ext_compare (list_compare local_part_compare)
                     (k_local a) (k_local b)))))).

(** [a >= b] *)
Definition ge (a b : t) : bool :=
  match key_compare (_cmpkey a) (_cmpkey b) with
  | Lt => false
  | _ => true
  end.

End Version.

(** ** Exceptions

    The classes the program raises, catches or can be handed by a
    collaborator, with the part of Python's class hierarchy that its
    [except] clauses consult.  Every class here derives from [Exception]. *)

Inductive exn_class : Type :=
| FileNotFoundError
| PermissionError
| IsADirectoryError
| NotADirectoryError
| OSError                 (* any other operating-system error *)
| UnicodeDecodeError
| ValueError
| InvalidVersion          (* packaging.version, derives from ValueError *)
| PackageNotFoundError    (* importlib.metadata, derives from ImportError *)
| Exception_              (* Exception itself, as the program raises it *)
| OtherException.         (* any other class a collaborator raises *)

(** An exception: its class and [str(e)]. *)
Record exn : Type := mkexn { class : exn_class; text : string }.

(** [except FileNotFoundError] *)
Definition is_FileNotFoundError (e : exn) : bool :=
  match class e with FileNotFoundError => true | _ => false end.

(** [except ValueError] *)
Definition is_ValueError (e : exn) : bool :=
  match class e with
  | ValueError | UnicodeDecodeError | InvalidVersion => true
  | _ => false
  end.

(** [except IOError]; [IOError] is [OSError]. *)
Definition is_IOError (e : exn) : bool :=
  match class e with
  | FileNotFoundError | PermissionError | IsADirectoryError
  | NotADirectoryError | OSError => true
  | _ => false
  end.

(** [except Exception] *)
Definition is_Exception (e : exn) : bool := true.

Inductive result (A : Type) : Type :=
| Ok (a : A)
| Raise (e : exn).
Arguments Ok {A} a.
Arguments Raise {A} e.

(** ** The collaborators *)

(** [azure.devops.released.feed.Feed], with its [name] and [id] *)
Record Feed : Type := mkFeed { feed_name_of : string; id : string }.

(** [MinimalPackageVersion] *)
Record MinimalPackageVersion : Type :=
  mkVersion { version : string; is_latest : bool }.

(** [Package] *)
Record Package : Type :=
  mkPackage { name : string; versions : list MinimalPackageVersion }.

(** The feed client object, known by its identity only. *)
Inductive FeedClient : Type := feed_client (handle : nat).

(** What [open(path, "r")] followed by [read()] finds at the throttle
    path: a text, or the exception the operating system answers with; a
    missing file is the one whose exception is a [FileNotFoundError]. *)
Inductive file : Type :=
| Unreadable (e : exn)
| Holds (content : string).

(** How [os.makedirs] and the [open(path, "w")] block of
    [_update_last_checked] end. *)
Inductive write_outcome : Type :=
| WriteOk
| WriteFailsBeforeOpen (e : exn)   (* [makedirs] or [open] raises *)
| WriteFailsAfterOpen (e : exn).   (* the file is truncated, then [write]
                                      or closing it raises *)

Record World : Type := mkWorld {
  (** [datetime.date.today()] *)
  today : date;
  (** [str(e)] of the [ValueError] that [strptime] raises on a text *)
  strptime_error : string -> string;
  (** [ArtifactsKeyringBackend().get_credential(url, username)]: the
      password, [None], or an exception *)
  get_credential : string -> string -> result (option string);
  (** [Connection(base_url, BasicAuthentication(user, password))
      .clients.get_feed_client()] *)
  connect : string -> string -> string -> result FeedClient;
  (** [client.get_feeds(project)] *)
  get_feeds : FeedClient -> string -> result (list Feed);
  (** [client.get_packages(project, feed_id, package_name_query)] *)
  get_packages : FeedClient -> string -> string -> string
                 -> result (list Package);
  (** [Distribution.from_name(name).version] *)
  Distribution_from_name : string -> result string;
  (** the file system's answer to a write of the throttle file *)
  write_throttle : write_outcome
}.

(** ** State and the monad of the methods *)

Record State : Type := mkState {
  (** the arguments of the [print] calls so far, oldest first *)
  console : list string;
  (** the file at [_last_checked_file_path] *)
  throttle_file : file;
  (** [self._feed_client] *)
  _feed_client : option FeedClient
}.

Definition M (A : Type) : Type := State -> result A * State.

Definition ret {A} (a : A) : M A := fun s => (Ok a, s).

Definition raise {A} (e : exn) : M A := fun s => (Raise e, s).

Definition bind {A B} (m : M A) (k : A -> M B) : M B :=
  fun s =>
    match m s with
    | (Ok a, s') => k a s'
    | (Raise e, s') => (Raise e, s')
    end.

Declare Scope py_scope.
Delimit Scope py_scope with py.
Notation "x <- m ;; k" := (bind m (fun x => k))
  (at level 61, m at next level, right associativity) : py_scope.
Notation "m ;; k" := (bind m (fun _ => k))
  (at level 61, right associativity) : py_scope.
Open Scope py_scope.

(** [try: body / except C as e: handler e], with [catches] deciding
    [isinstance(e, C)]. *)
Definition try_except {A} (body : M A) (catches : exn -> bool)
    (handler : exn -> M A) : M A :=
  fun s =>
    match body s with
    | (Raise e, s') => if catches e then handler e s' else (Raise e, s')
    | r => r
    end.

(** the answer of a collaborator *)
Definition call {A} (r : result A) : M A := fun s => (r, s).

Definition print (line : string) : M unit :=
  fun s => (Ok tt,
            mkState (console s ++ [line]) (throttle_file s) (_feed_client s)).

Definition when (b : bool) (m : M unit) : M unit := if b then m else ret tt.

(** [colorama]'s constants *)
Module Fore.
Definition ESC : string := String (ascii_of_nat 27) "[".
Definition RED : string := ESC ++ "31m".
Definition GREEN : string := ESC ++ "32m".
Definition YELLOW : string := ESC ++ "33m".
Definition RESET : string := ESC ++ "39m".
End Fore.

Module Style.
Definition BRIGHT : string := Fore.ESC ++ "1m".
End Style.

(** ** The class *)

Record UpdateNotifier : Type := mkUpdateNotifier {
  DEBUG : bool;
  organization : string;
  project : string;
  feed_name : string;
  package_name : string;
  username : string
}.

Section Methods.

Variable self : UpdateNotifier.
Variable w : World.

Definition _get_pat : M string :=
  let url := "https://pkgs.dev.azure.com/" ++ organization self ++ "/"
             ++ project self ++ "/_packaging/" ++ feed_name self
             ++ "/pypi/simple/" in
  cred <- call (get_credential w url (username self)) ;;
  match cred with
  | Some password => ret password
  | None => raise (mkexn Exception_ "Error getting credential")
  end.

Definition _get_feed_client : M FeedClient :=
  fun s =>
    match _feed_client s with
    | Some c => (Ok c, s)
    | None =>
        (pat <- _get_pat ;;
         c <- call (connect w ("https://dev.azure.com/" ++ organization self)
                      "" pat) ;;
         fun s' =>
           (Ok c, mkState (console s') (throttle_file s') (Some c))) s
    end.

(** [for feed in feeds: if feed.name == self.feed_name: return feed.id] *)
Fixpoint for_feed_in (feeds : list Feed) : option string :=
  match feeds with
  | [] => None
  | feed :: rest =>
      if String.eqb (feed_name_of feed) (feed_name self)
      then Some (id feed)
      else for_feed_in rest
  end.

Definition _get_feed_id : M string :=
  client <- _get_feed_client ;;
  feeds <- call (get_feeds w client (project self)) ;;
  match for_feed_in feeds with
  | Some i => ret i
  | None =>
      raise (mkexn Exception_
               ("Error getting feed id for feed name '" ++ feed_name self
                ++ "'"))
  end.

(** [for package in packages: if package.name == self.package_name:
    return package] *)
Fixpoint for_package_in (packages : list Package) : option Package :=
  match packages with
  | [] => None
  | package :: rest =>
      if String.eqb (name package) (package_name self)
      then Some package
      else for_package_in rest
  end.

Definition _get_package_info : M Package :=
  client <- _get_feed_client ;;
  feed_id <- _get_feed_id ;;
  packages <- call (get_packages w client (project self) feed_id
                      (package_name self)) ;;
  match for_package_in packages with
  | Some package => ret package
  | None =>
      raise (mkexn Exception_
               ("Error getting package info for package name '"
                ++ package_name self ++ "'"))
  end.

(** [for v in versions: if v.is_latest: return v.version], then
    [return None] *)
Fixpoint for_v_in (vs : list MinimalPackageVersion) : option string :=
  match vs with
  | [] => None
  | v :: rest => if is_latest v then Some (version v) else for_v_in rest
  end.

Definition _get_latest_version : M (option string) :=
  package <- _get_package_info ;;
  ret (for_v_in (versions package)).

Definition current_version_warning : string :=
  Fore.RED ++ Style.BRIGHT
  ++ "Unable to get the current installed version of " ++ package_name self
  ++ "The package might have not been installed in a different way"
  ++ Fore.RESET.

Definition debug_line (e : exn) : string := Fore.RED ++ text e ++ Fore.RESET.

Definition _get_current_version : M (option string) :=
  try_except
    (v <- call (Distribution_from_name w (package_name self)) ;;
     ret (Some v))
    is_Exception
    (fun e =>
       print current_version_warning ;;
       when (DEBUG self) (print (debug_line e)) ;;
       ret None).

(** [open(path, "r")] and [file.read()] *)
Definition read_throttle : M string :=
  fun s =>
    match throttle_file s with
    | Holds content => (Ok content, s)
    | Unreadable e => (Raise e, s)
    end.

(** [datetime.datetime.strptime(content, "%Y-%m-%d").date()] *)
Definition strptime (content : string) : M date :=
  match Strptime.strptime content with
  | Some d => ret d
  | None => raise (mkexn ValueError (strptime_error w content))
  end.

Definition _should_check : M bool :=
  try_except
    (data <- read_throttle ;;
     let content := Str.strip data in
     try_except
       (file_date <- strptime content ;;
        let current_date := today w in
        ret (1 <? days_between current_date file_date))
       is_ValueError
       (fun ve =>
          when (DEBUG self) (print (debug_line ve)) ;;
          ret true))
    is_FileNotFoundError
    (fun fe =>
       when (DEBUG self) (print (debug_line fe)) ;;
       ret true).

(** [os.makedirs(parent, exist_ok=True)], then the [with open(path, "w")]
    block writing [content] *)
Definition write_throttle_file (content : string) : M unit :=
  fun s =>
    match write_throttle w with
    | WriteOk =>
        (Ok tt, mkState (console s) (Holds content) (_feed_client s))
    | WriteFailsBeforeOpen e => (Raise e, s)
    | WriteFailsAfterOpen e =>
        (Raise e, mkState (console s) (Holds "") (_feed_client s))
    end.

Definition last_checked_warning : string :=
  Fore.RED ++ Style.BRIGHT
  ++ "Update Notifier Error: Unable to save last checked date" ++ Fore.RESET.

Definition _update_last_checked : M unit :=
  try_except
    (write_throttle_file (strftime (today w)))
    is_IOError
    (fun e =>
       print last_checked_warning ;;
       when (DEBUG self) (print (debug_line e))).

(** [version.parse] *)
Definition version_parse (v : string) : M Version.t :=
  match Version.parse v with
  | Some x => ret x
  | None => raise (mkexn InvalidVersion ("Invalid version: '" ++ v ++ "'"))
  end.

Definition up_to_date_message (current_version : string) : string :=
  Fore.GREEN ++ Style.BRIGHT ++ package_name self ++ " is up-to-date"
  ++ " (version " ++ current_version ++ ")" ++ Fore.RESET.

Definition upgrade_message (current_version latest_version : string)
  : string :=
  Fore.YELLOW ++ Style.BRIGHT
  ++ "Please run the following command to update " ++ package_name self
  ++ " to the latest version (" ++ current_version ++ " -> "
  ++ latest_version ++ "):" ++ Fore.RESET ++ Str.nl.

Definition pip_command (latest_version : string) : string :=
  "pip install " ++ package_name self ++ "==" ++ latest_version ++ Str.nl.

Definition error_message : string :=
  Fore.RED ++ Style.BRIGHT ++ "Error checking for update for "
  ++ package_name self ++ Fore.RESET.

Definition error_detail (e : exn) : string :=
  Fore.RED ++ Style.BRIGHT ++ text e ++ Fore.RESET.

(** the body of the [try] of [check_for_update] *)
Definition check_body : M unit :=
  latest_version <- _get_latest_version ;;
  current_version <- _get_current_version ;;
  match current_version, latest_version with
  | Some current_version, Some latest_version =>
      current <- version_parse current_version ;;
      latest <- version_parse latest_version ;;
      (if Version.ge current latest
       then print (up_to_date_message current_version)
       else
         print (upgrade_message current_version latest_version) ;;
         print (pip_command latest_version)) ;;
      _update_last_checked
  | _, _ => ret tt
  end.

Definition check_for_update : M unit :=
  go <- _should_check ;;
  if go
  then
    try_except check_body is_Exception
      (fun e =>
         print error_message ;;
         when (DEBUG self) (print (error_detail e)))
  else ret tt.

End Methods.

(** ** Vocabulary of the properties *)

(** A text in the form YYYY-MM-DD, as the specification names it: four
    digits, a dash, two digits, a dash, two digits, naming a day of the
    calendar. *)
Definition is_YYYY_MM_DD (s : string) : bool :=
  match s with
  | String y1 (String y2 (String y3 (String y4 (String dash1
      (String m1 (String m2 (String dash2
      (String d1 (String d2 EmptyString))))))))) =>
      forallb Str.isdigit [y1; y2; y3; y4; m1; m2; d1; d2]
      && Ascii.eqb dash1 "-" && Ascii.eqb dash2 "-"
      && valid_date
           (mkdate (Str.int (String y1 (String y2 (String y3 (String y4 ""))))
              ) (Str.int (String m1 (String m2 "")))
              (Str.int (String d1 (String d2 ""))))
  | _ => false
  end.

(** No character of the text is white space. *)
Fixpoint no_space (s : string) : bool :=
  match s with
  | EmptyString => true
  | String c r => negb (Str.isspace c) && no_space r
  end.

(** [version.parse(a) >= version.parse(b)]; [None] when the parser
    refuses one of the two. *)
Definition version_ge (a b : string) : option bool :=
  match Version.parse a, Version.parse b with
  | Some x, Some y => Some (Version.ge x y)
  | _, _ => None
  end.

(** The state with other lines on the console. *)
Definition with_console (s : State) (lines : list string) : State :=
  mkState lines (throttle_file s) (_feed_client s).

(** The state after the debug line of a caught exception, if any. *)
Definition after_debug (self : UpdateNotifier) (s : State) (e : exn) : State :=
  if DEBUG self then with_console s (console s ++ [debug_line e]) else s.

(** The lines that report a comparison of versions. *)
Definition comparison_line (self : UpdateNotifier) (line : string) : Prop :=
  (exists c, line = up_to_date_message self c)
  \/ (exists c l, line = upgrade_message self c l)
  \/ (exists l, line = pip_command self l).

(** The line opens with [Fore.RED]. *)
Definition red_line (line : string) : Prop :=
  exists rest, line = Fore.RED ++ rest.

(** [s'] is [s] with some lines, all of them satisfying [P], printed. *)
Definition printed (P : string -> Prop) (s s' : State) : Prop :=
  exists lines, console s' = (console s ++ lines)%list /\ Forall P lines.

(** [m] prints nothing and does not touch the throttle file. *)
Definition quiet {A} (m : M A) : Prop :=
  forall s, console (snd (m s)) = console s
            /\ throttle_file (snd (m s)) = throttle_file s.

(** The state after the handler of [check_for_update] reported [e]. *)
Definition handled (self : UpdateNotifier) (s : State) (e : exn) : State :=
  with_console s
    (console s
     ++ error_message self :: (if DEBUG self then [error_detail e] else [])).

(** The state after [_get_current_version] warned about [e]. *)
Definition warned (self : UpdateNotifier) (s : State) (e : exn) : State :=
  with_console s
    (console s
     ++ current_version_warning self
        :: (if DEBUG self then [debug_line e] else [])).

(** The lines that report the comparison of two parsed versions. *)
Definition report (self : UpdateNotifier) (current latest : string)
    (c l : Version.t) : list string :=
  if Version.ge c l
  then [up_to_date_message self current]
  else [upgrade_message self current latest; pip_command self latest].

(** The throttle file after [_update_last_checked] ran. *)
Definition written (w : World) (before : file) : file :=
  match write_throttle w with
  | WriteOk => Holds (strftime (today w))
  | WriteFailsBeforeOpen _ => before
  | WriteFailsAfterOpen _ => Holds ""
  end.

(** [check_for_update], run in [s], returns normally and leaves on the
    console what [s2] had, then [lines], then at most the red warning of
    a write that failed. *)
Definition reports (self : UpdateNotifier) (w : World) (s s2 : State)
    (lines : list string) : Prop :=
  exists s' rest,
    check_for_update self w s = (Ok tt, s')
    /\ console s' = (console s2 ++ lines ++ rest)%list
    /\ Forall red_line rest
    /\ (write_throttle w = WriteOk -> rest = []).

(** The check reaches the comparison and both versions parse. *)
Definition comparison_completes (self : UpdateNotifier) (w : World)
    (s : State) : bool :=
  match _should_check self w s with
  | (Ok true, s1) =>
      match _get_latest_version self w s1 with
      | (Ok (Some latest), _) =>
          match Distribution_from_name w (package_name self) with
          | Ok current =>
              match Version.parse current, Version.parse latest with
              | Some _, Some _ => true
              | _, _ => false
              end
          | Raise _ => false
          end
      | _ => false
      end
  | _ => false
  end.

(** ** A small world to run the methods in *)

Module Sample.

Definition notifier (debug : bool) : UpdateNotifier :=
  mkUpdateNotifier debug "org" "proj" "feed" "pkg" "user".

Definition feeds : list Feed :=
  [mkFeed "Feed" "id-0"; mkFeed "feed" "id-1"; mkFeed "feed" "id-2"].

Definition packages (latest : string) : list Package :=
  [mkPackage "pkg-extra" [mkVersion "7.0" true];
   mkPackage "pkg"
     [mkVersion "0.9.0" false; mkVersion latest true; mkVersion "9.9" true]].

Definition world (now : date) (current : result string) (latest : string)
    (wo : write_outcome) : World :=
  mkWorld now
    (fun s => "time data does not match format: " ++ s)
    (fun _ _ => Ok (Some "secret"))
    (fun _ _ _ => Ok (feed_client 0))
    (fun _ _ => Ok feeds)
    (fun _ _ _ _ => Ok (packages latest))
    (fun _ => current)
    wo.

Definition state (f : file) : State := mkState [] f None.

Definition missing : file :=
  Unreadable (mkexn FileNotFoundError "[Errno 2] No such file or directory").

Definition denied : exn := mkexn PermissionError "[Errno 13] Permission denied".

Definition not_found : exn :=
  mkexn PackageNotFoundError "No package metadata was found for pkg".

End Sample.

(** ** Vocabulary of the further properties *)

(** The address [_get_pat] asks the credential store about. *)
Definition credential_url (self : UpdateNotifier) : string :=
  "https://pkgs.dev.azure.com/" ++ organization self ++ "/" ++ project self
  ++ "/_packaging/" ++ feed_name self ++ "/pypi/simple/".

(** [m] never clears or replaces a feed client that is cached. *)
Definition keeps_client {A} (m : M A) : Prop :=
  forall s c, _feed_client s = Some c -> _feed_client (snd (m s)) = Some c.

(** The world [w] with another credential store and another way to
    connect. *)
Definition with_store (w : World)
    (store : string -> string -> result (option string))
    (connection : string -> string -> string -> result FeedClient) : World :=
  mkWorld (today w) (strptime_error w) store connection (get_feeds w)
    (get_packages w) (Distribution_from_name w) (write_throttle w).

(** The instance [self] with another [DEBUG] flag. *)
Definition with_debug (self : UpdateNotifier) (debug : bool) : UpdateNotifier :=
  mkUpdateNotifier debug (organization self) (project self) (feed_name self)
    (package_name self) (username self).

(** Two states that differ in their consoles at most. *)
Definition same_but_console (s s' : State) : Prop :=
  throttle_file s = throttle_file s' /\ _feed_client s = _feed_client s'.

(** From states that differ in their consoles at most, [m] and [m'] end
    in the same result and in states that differ in their consoles at
    most. *)
Definition alike {A} (m m' : M A) : Prop :=
  forall s s',
    same_but_console s s' ->
    fst (m s) = fst (m' s') /\ same_but_console (snd (m s)) (snd (m' s')).

(** The exceptions of the two lookups of the program. *)
Definition feed_lookup_error (self : UpdateNotifier) : exn :=
  mkexn Exception_
    ("Error getting feed id for feed name '" ++ feed_name self ++ "'").

Definition package_lookup_error (self : UpdateNotifier) : exn :=
  mkexn Exception_
    ("Error getting package info for package name '" ++ package_name self
     ++ "'").

(** What the service answers a lookup of the latest version through the
    client [c]. *)
Definition lookup_with (self : UpdateNotifier) (w : World) (c : FeedClient)
  : result (option string) :=
  match get_feeds w c (project self) with
  | Raise e => Raise e
  | Ok feeds =>
      match for_feed_in self feeds with
      | None => Raise (feed_lookup_error self)
      | Some i =>
          match get_packages w c (project self) i (package_name self) with
          | Raise e => Raise e
          | Ok packages =>
              match for_package_in self packages with
              | None => Raise (package_lookup_error self)
              | Some package => Ok (for_v_in (versions package))
              end
          end
      end
  end.

(** Worlds for the further properties, each collaborator chosen apart. *)
Module Scenario.

Definition world (now : date) (credential : result (option string))
    (feeds : result (list Feed)) (packages : result (list Package))
    (current : result string) (wo : write_outcome) : World :=
  mkWorld now
    (fun s => "time data does not match format: " ++ s)
    (fun _ _ => credential)
    (fun _ _ _ => Ok (feed_client 7))
    (fun _ _ => feeds)
    (fun _ _ _ _ => packages)
    (fun _ => current)
    wo.

Definition self : UpdateNotifier :=
  mkUpdateNotifier false "org" "proj" "feed" "pkg" "user".

Definition feeds : list Feed := [mkFeed "feed" "id-1"].

Definition packages : list Package :=
  [mkPackage "pkg.tools" [mkVersion "3.0" true];
   mkPackage "pkg" [mkVersion "1.0.0" false; mkVersion "1.2.0" true];
   mkPackage "pkg" [mkVersion "8.0" true]].

(** a day on which everything answers *)
Definition fine (now : date) (wo : write_outcome) : World :=
  world now (Ok (Some "secret")) (Ok feeds) (Ok packages) (Ok "1.2.0") wo.

Definition old : State := mkState [] (Holds "2024-01-01") None.

Definition disk_full : exn := mkexn OSError "[Errno 28] No space left on device".

End Scenario.

(** [enum m lo n] splits the goal along the values [lo .. lo+n-1] of the
    integer variable [m], which the context bounds. *)
Ltac enum m lo n :=
  let H := fresh "Henum" in
  assert (H : In (Z.to_nat m) (seq lo n)) by (apply in_seq; lia);
  cbn [seq In] in H;
  repeat (destruct H as [H|H];
          [ apply (f_equal Z.of_nat) in H; rewrite Z2Nat.id in H by lia;
            cbn in H; subst m | ]);
  [ .. | contradiction ].

(** * Properties *)

(** ** The models at work *)

Example strptime_padded :
  Strptime.strptime "2024-01-05" = Some (mkdate 2024 1 5).
Proof. reflexivity. Qed.

Example strptime_unpadded :
  Strptime.strptime "2024-1-5" = Some (mkdate 2024 1 5).
Proof. reflexivity. Qed.

Example strptime_feb30 : Strptime.strptime "2023-02-30" = None.
Proof. reflexivity. Qed.

Example strptime_leftover : Strptime.strptime "2024-01-055" = None.
Proof. reflexivity. Qed.

Example strptime_year0 : Strptime.strptime "0000-01-01" = None.
Proof. reflexivity. Qed.

Example strftime_example : strftime (mkdate 2024 1 5) = "2024-01-05".
Proof. reflexivity. Qed.

Example toordinal_example : toordinal (mkdate 2024 3 1) = 738946.
Proof. reflexivity. Qed.

Example parse_release :
  Version.parse "1.2.0" = Some (Version.mk 0 [1; 2; 0] None None None None).
Proof. vm_compute. reflexivity. Qed.

Example parse_full :
  Version.parse " V2!1.0-RC.3.post4_dev+Ubuntu-12 "
  = Some (Version.mk 2 [1; 0] (Some (Version.PreRC, 3)) (Some 4) (Some 0)
            (Some [Version.LStr "ubuntu"; Version.LInt 12])).
Proof. vm_compute. reflexivity. Qed.

Example parse_implicit_post :
  Version.parse "1.0-7"
  = Some (Version.mk 0 [1; 0] None (Some 7) None None).
Proof. vm_compute. reflexivity. Qed.

Example parse_invalid : Version.parse "1.0.x" = None.
Proof. vm_compute. reflexivity. Qed.

Example parse_empty : Version.parse "" = None.
Proof. vm_compute. reflexivity. Qed.

Example order_trailing_zero :
  version_ge "1.0" "1.0.0" = Some true /\ version_ge "1.0.0" "1.0" = Some true.
Proof. vm_compute. split; reflexivity. Qed.

Example order_numeric_not_textual :
  version_ge "1.10.0" "1.9.0" = Some true
  /\ Str.compare "1.10.0" "1.9.0" = Lt.
Proof. vm_compute. split; reflexivity. Qed.

Example order_pre_release :
  version_ge "1.0rc1" "1.0" = Some false
  /\ version_ge "1.0b2" "1.0a9" = Some true
  /\ version_ge "1.0a1" "1.0.dev1" = Some true
  /\ version_ge "1.0a1.dev1" "1.0a1" = Some false.
Proof. vm_compute. repeat split; reflexivity. Qed.

Example order_post_epoch_local :
  version_ge "1.0" "1.0.post1" = Some false
  /\ version_ge "1!0.1" "2.0" = Some true
  /\ version_ge "1.0" "1.0+local" = Some false
  /\ version_ge "1.0+1" "1.0+abc" = Some true.
Proof. vm_compute. repeat split; reflexivity. Qed.

Example order_refused : version_ge "1.0" "latest" = None.
Proof. vm_compute. reflexivity. Qed.


(** ** Digits, padding and white space *)

Lemma digit_cases k : 0 <= k <= 9 ->
  k = 0 \/ k = 1 \/ k = 2 \/ k = 3 \/ k = 4 \/ k = 5 \/ k = 6 \/ k = 7
  \/ k = 8 \/ k = 9.
Proof. lia. Qed.

Lemma digit_chr_isdigit k : 0 <= k <= 9 ->
  Str.isdigit (Str.digit_chr k) = true.
Proof.
  intros H. destruct (digit_cases k H) as [E|[E|[E|[E|[E|[E|[E|[E|[E|E]]]]]]]]];
    subst k; reflexivity.
Qed.

Lemma digit_chr_val k : 0 <= k <= 9 ->
  Str.digit_val (Str.digit_chr k) = k.
Proof.
  intros H. destruct (digit_cases k H) as [E|[E|[E|[E|[E|[E|[E|[E|[E|E]]]]]]]]];
    subst k; reflexivity.
Qed.

Lemma digit_chr_not_space k : 0 <= k <= 9 ->
  Str.isspace (Str.digit_chr k) = false.
Proof.
  intros H. destruct (digit_cases k H) as [E|[E|[E|[E|[E|[E|[E|[E|[E|E]]]]]]]]];
    subst k; reflexivity.
Qed.

Lemma re_Y_digits a b c e rest :
  0 <= a <= 9 -> 0 <= b <= 9 -> 0 <= c <= 9 -> 0 <= e <= 9 ->
  Strptime.re_Y
    (String (Str.digit_chr a) (String (Str.digit_chr b)
      (String (Str.digit_chr c) (String (Str.digit_chr e) rest))))
  = [(1000 * a + 100 * b + 10 * c + e, rest)].
Proof.
  intros Ha Hb Hc He.
  unfold Strptime.re_Y, Re.bind, Re.cls, Re.ret.
  rewrite (digit_chr_isdigit a Ha). cbn [flat_map fst snd app].
  rewrite (digit_chr_isdigit b Hb). cbn [flat_map fst snd app].
  rewrite (digit_chr_isdigit c Hc). cbn [flat_map fst snd app].
  rewrite (digit_chr_isdigit e He). cbn [flat_map fst snd app].
  rewrite !digit_chr_val by assumption. reflexivity.
Qed.

Lemma pad4_digits y : 0 <= y <= 9999 ->
  exists a b c e,
    (0 <= a <= 9 /\ 0 <= b <= 9 /\ 0 <= c <= 9 /\ 0 <= e <= 9)
    /\ 1000 * a + 100 * b + 10 * c + e = y
    /\ pad4 y = String (Str.digit_chr a) (String (Str.digit_chr b)
                  (String (Str.digit_chr c) (String (Str.digit_chr e) ""))).
Proof.
  intros H.
  exists (y / 1000), (y / 100 mod 10), (y mod 100 / 10), (y mod 100 mod 10).
  split; [|split].
  - Z.div_mod_to_equations. lia.
  - Z.div_mod_to_equations. lia.
  - reflexivity.
Qed.

Lemma after_Y_padded y m d rest :
  1 <= m <= 12 -> 1 <= d <= 31 ->
  hd_error (Strptime.after_Y y ("-" ++ pad2 m ++ "-" ++ pad2 d ++ rest))
  = Some (mkdate y m d, rest).
Proof.
  intros Hm Hd. enum m 1%nat 12%nat; enum d 1%nat 31%nat;
    vm_compute; reflexivity.
Qed.

Lemma days_in_month_le_31 y m : _days_in_month y m <= 31.
Proof.
  unfold _days_in_month.
  destruct ((m =? 2) && _is_leap y); [lia|].
  unfold _DAYS_IN_MONTH. generalize (Z.to_nat m). intros n.
  do 13 (destruct n as [|n]; [cbn; lia|]).
  destruct n; cbn; lia.
Qed.

Lemma valid_date_bounds d : valid_date d = true ->
  1 <= year d <= 9999 /\ 1 <= month d <= 12
  /\ 1 <= day d <= _days_in_month (year d) (month d).
Proof.
  unfold valid_date, MINYEAR, MAXYEAR. intros H.
  repeat (apply andb_prop in H; destruct H as [H ?]).
  repeat match goal with
         | H : (_ <=? _) = true |- _ => apply Z.leb_le in H
         end.
  lia.
Qed.

(** What [strptime] finds in a written date followed by [rest]. *)
Lemma format_regex_strftime d rest :
  valid_date d = true ->
  hd_error (Strptime.format_regex (strftime d ++ rest)) = Some (d, rest).
Proof.
  intros V. destruct (valid_date_bounds d V) as (Hy & Hm & Hd).
  pose proof (days_in_month_le_31 (year d) (month d)) as H31.
  destruct d as [y m dd]; cbn [year month day] in *.
  destruct (pad4_digits y) as (a & b & c & e & (Ha & Hb & Hc & He) & Hsum & Hpad);
    [lia|].
  unfold Strptime.format_regex, strftime.
  cbn [year month day]. rewrite Hpad. unfold pad2. cbn [append].
  unfold Re.bind at 1.
  rewrite re_Y_digits by assumption. cbn [flat_map fst snd].
  rewrite app_nil_r, Hsum.
  pose proof (after_Y_padded y m dd rest Hm ltac:(lia)) as HA.
  unfold pad2 in HA. cbn [append] in HA. exact HA.
Qed.

(** Reading back a date that [strftime] wrote gives the date. *)
Lemma strptime_strftime d :
  valid_date d = true -> Strptime.strptime (strftime d) = Some d.
Proof.
  intros V. pose proof (format_regex_strftime d "" V) as H.
  unfold Strptime.strptime.
  replace (strftime d ++ "") with (strftime d) in H.
  - destruct (Strptime.format_regex (strftime d)) as [|[d' r] tl];
      [discriminate|].
    cbn in H. injection H as -> ->. rewrite V. reflexivity.
  - generalize (strftime d). intros s. induction s as [|c s IH]; cbn;
      [reflexivity | f_equal; exact IH].
Qed.

(** Trailing text after a written date makes [strptime] refuse it. *)
Lemma strptime_trailing d c rest :
  valid_date d = true ->
  Strptime.strptime (strftime d ++ String c rest) = None.
Proof.
  intros V. pose proof (format_regex_strftime d (String c rest) V) as H.
  unfold Strptime.strptime.
  destruct (Strptime.format_regex _) as [|[d' r] tl]; [reflexivity|].
  cbn in H. injection H as -> ->. reflexivity.
Qed.

Lemma lstrip_spaces a s :
  Str.all_space a = true -> Str.lstrip (a ++ s) = Str.lstrip s.
Proof.
  induction a as [|c a IH]; cbn; intros H; [reflexivity|].
  apply andb_prop in H. destruct H as [Hc Ha]. rewrite Hc. auto.
Qed.

Lemma lstrip_all_space b : Str.all_space b = true -> Str.lstrip b = "".
Proof.
  induction b as [|c b IH]; cbn; intros H; [reflexivity|].
  apply andb_prop in H. destruct H as [Hc Hb]. rewrite Hc. auto.
Qed.

Lemma rstrip_all_space b : Str.all_space b = true -> Str.rstrip b = "".
Proof.
  induction b as [|c b IH]; cbn; intros H; [reflexivity|].
  apply andb_prop in H. destruct H as [Hc Hb]. rewrite (IH Hb), Hc.
  reflexivity.
Qed.

Lemma rstrip_app_spaces s b :
  Str.all_space b = true -> Str.rstrip (s ++ b) = Str.rstrip s.
Proof.
  intros H. induction s as [|c s IH]; cbn.
  - apply rstrip_all_space, H.
  - rewrite IH. reflexivity.
Qed.

Lemma rstrip_no_space s : no_space s = true -> Str.rstrip s = s.
Proof.
  induction s as [|c s IH]; cbn; intros H; [reflexivity|].
  apply andb_prop in H. destruct H as [Hc Hs]. rewrite (IH Hs).
  destruct s; [|reflexivity].
  destruct (Str.isspace c); [discriminate|reflexivity].
Qed.

(** [strip] removes the white space around a text that has none inside. *)
Lemma strip_surrounded a s b :
  Str.all_space a = true -> Str.all_space b = true -> no_space s = true ->
  Str.strip (a ++ s ++ b) = s.
Proof.
  intros Ha Hb Hs. unfold Str.strip. rewrite (lstrip_spaces a _ Ha).
  destruct s as [|c s].
  - cbn [append]. rewrite (lstrip_all_space b Hb). reflexivity.
  - cbn [append Str.lstrip]. cbn in Hs. apply andb_prop in Hs.
    destruct Hs as [Hc Hs]. apply negb_true_iff in Hc. rewrite Hc.
    change (String c (s ++ b)) with (String c s ++ b).
    rewrite (rstrip_app_spaces _ b Hb). apply rstrip_no_space.
    cbn. rewrite Hc, Hs. reflexivity.
Qed.

Lemma no_space_app s u :
  no_space (s ++ u) = no_space s && no_space u.
Proof.
  induction s as [|c s IH]; cbn; [reflexivity|].
  rewrite IH, andb_assoc. reflexivity.
Qed.

Lemma no_space_pad2 n : 0 <= n <= 99 -> no_space (pad2 n) = true.
Proof.
  intros H. unfold pad2. cbn.
  rewrite !digit_chr_not_space; [reflexivity| |];
    Z.div_mod_to_equations; lia.
Qed.

Lemma no_space_strftime d : valid_date d = true -> no_space (strftime d) = true.
Proof.
  intros V. destruct (valid_date_bounds d V) as (Hy & Hm & Hd).
  pose proof (days_in_month_le_31 (year d) (month d)) as H31.
  unfold strftime. rewrite !no_space_app.
  rewrite (no_space_pad2 (month d)), (no_space_pad2 (day d)) by lia.
  destruct (pad4_digits (year d)) as (a & b & c & e & (Ha & Hb & Hc & He) & _ & ->);
    [lia|].
  cbn. rewrite !digit_chr_not_space by assumption. reflexivity.
Qed.

Lemma strip_strftime d : valid_date d = true -> Str.strip (strftime d) = strftime d.
Proof.
  intros V.
  pose proof (strip_surrounded "" (strftime d) "" eq_refl eq_refl
                (no_space_strftime d V)) as H.
  cbn [append] in H.
  replace (strftime d ++ "") with (strftime d) in H; [exact H|].
  generalize (strftime d). intros s. induction s as [|c s IH]; cbn;
    [reflexivity | f_equal; exact IH].
Qed.

(** ** Texts in the form YYYY-MM-DD

    [is_YYYY_MM_DD] holds of the texts that [strftime] writes for the
    days of the calendar, and of no other. *)

Lemma isdigit_digit_chr c :
  Str.isdigit c = true ->
  0 <= Str.digit_val c <= 9 /\ c = Str.digit_chr (Str.digit_val c).
Proof.
  destruct c as [[] [] [] [] [] [] [] []]; intros H;
    try discriminate H; vm_compute; repeat split; discriminate.
Qed.

Lemma pad2_digits a b :
  0 <= a <= 9 -> 0 <= b <= 9 ->
  pad2 (10 * a + b) = String (Str.digit_chr a) (String (Str.digit_chr b) "").
Proof.
  intros Ha Hb. unfold pad2.
  replace ((10 * a + b) / 10) with a by (Z.div_mod_to_equations; lia).
  replace ((10 * a + b) mod 10) with b by (Z.div_mod_to_equations; lia).
  reflexivity.
Qed.

Lemma pad4_of_digits a b c e :
  0 <= a <= 9 -> 0 <= b <= 9 -> 0 <= c <= 9 -> 0 <= e <= 9 ->
  pad4 (1000 * a + 100 * b + 10 * c + e)
  = String (Str.digit_chr a) (String (Str.digit_chr b)
      (String (Str.digit_chr c) (String (Str.digit_chr e) ""))).
Proof.
  intros Ha Hb Hc He. unfold pad4.
  replace ((1000 * a + 100 * b + 10 * c + e) / 1000) with a
    by (Z.div_mod_to_equations; lia).
  replace ((1000 * a + 100 * b + 10 * c + e) / 100 mod 10) with b
    by (Z.div_mod_to_equations; lia).
  replace ((1000 * a + 100 * b + 10 * c + e) mod 100) with (10 * c + e)
    by (Z.div_mod_to_equations; lia).
  rewrite pad2_digits by assumption. reflexivity.
Qed.

Lemma is_YYYY_MM_DD_strftime d :
  valid_date d = true -> is_YYYY_MM_DD (strftime d) = true.
Proof.
  intros V. destruct (valid_date_bounds d V) as (Hy & Hm & Hd).
  pose proof (days_in_month_le_31 (year d) (month d)) as H31.
  destruct d as [y m dd]; cbn [year month day] in *.
  destruct (pad4_digits y) as (a & b & c & e & (Ha & Hb & Hc & He) & Hsum & Hpad);
    [lia|].
  unfold strftime; cbn [year month day]. rewrite Hpad. unfold pad2.
  cbn [append is_YYYY_MM_DD forallb].
  assert (Hm1 : 0 <= m / 10 <= 9) by (Z.div_mod_to_equations; lia).
  assert (Hm2 : 0 <= m mod 10 <= 9) by (Z.div_mod_to_equations; lia).
  assert (Hd1 : 0 <= dd / 10 <= 9) by (Z.div_mod_to_equations; lia).
  assert (Hd2 : 0 <= dd mod 10 <= 9) by (Z.div_mod_to_equations; lia).
  rewrite !digit_chr_isdigit by assumption.
  unfold Str.int. cbn [Str.int_acc andb Ascii.eqb Bool.eqb].
  rewrite !digit_chr_val by assumption.
  replace (10 * (10 * (10 * (10 * 0 + a) + b) + c) + e) with y by lia.
  replace (10 * (10 * 0 + m / 10) + m mod 10) with m
    by (Z.div_mod_to_equations; lia).
  replace (10 * (10 * 0 + dd / 10) + dd mod 10) with dd
    by (Z.div_mod_to_equations; lia).
  exact V.
Qed.

Lemma is_YYYY_MM_DD_written s :
  is_YYYY_MM_DD s = true -> exists d, valid_date d = true /\ s = strftime d.
Proof.
  destruct s as [|y1 [|y2 [|y3 [|y4 [|h1 [|m1 [|m2 [|h2 [|d1 [|d2 [|? ?]]]]]]]]]]];
    try discriminate.
  cbn [is_YYYY_MM_DD forallb]. intros H.
  apply andb_prop in H. destruct H as [H V].
  apply andb_prop in H. destruct H as [H E2]. apply Ascii.eqb_eq in E2.
  apply andb_prop in H. destruct H as [H E1]. apply Ascii.eqb_eq in E1.
  subst h1 h2.
  do 8 (apply andb_prop in H; let Hc := fresh "Hdig" in destruct H as [Hc H]).
  repeat match goal with
         | H : Str.isdigit ?c = true |- _ =>
             destruct (isdigit_digit_chr c H) as [? ?]; clear H
         end.
  eexists. split; [exact V|].
  unfold strftime, Str.int; cbn [year month day Str.int_acc].
  rewrite !Z.mul_0_r, !Z.add_0_l.
  replace (10 * (10 * (10 * Str.digit_val y1 + Str.digit_val y2)
                 + Str.digit_val y3) + Str.digit_val y4)
    with (1000 * Str.digit_val y1 + 100 * Str.digit_val y2
          + 10 * Str.digit_val y3 + Str.digit_val y4) by lia.
  rewrite pad4_of_digits, !pad2_digits by assumption.
  cbn [append]. congruence.
Qed.

(** What [strptime] refuses is not in the form YYYY-MM-DD. *)
Lemma strptime_refuses_only_others s :
  Strptime.strptime s = None -> is_YYYY_MM_DD s = false.
Proof.
  intros H. destruct (is_YYYY_MM_DD s) eqn:E; [|reflexivity].
  destruct (is_YYYY_MM_DD_written s E) as (d & V & ->).
  rewrite (strptime_strftime d V) in H. discriminate H.
Qed.

(** ** The calendar *)

Lemma days_before_year_succ y :
  _days_before_year (y + 1)
  = _days_before_year y + 365 + (if _is_leap y then 1 else 0).
Proof.
  unfold _days_before_year, _is_leap.
  replace (y + 1 - 1) with y by lia.
  destruct (y mod 4 =? 0) eqn:E4; destruct (y mod 100 =? 0) eqn:E100;
    destruct (y mod 400 =? 0) eqn:E400; cbn [andb orb negb];
    repeat match goal with
           | H : (_ =? _) = true |- _ => apply Z.eqb_eq in H
           | H : (_ =? _) = false |- _ => apply Z.eqb_neq in H
           end;
    Z.div_mod_to_equations; lia.
Qed.

(** The calendar's next day is one ordinal further. *)
Lemma toordinal_next_day d :
  valid_date d = true -> toordinal (next_day d) = toordinal d + 1.
Proof.
  intros V. destruct (valid_date_bounds d V) as (Hy & Hm & Hd).
  destruct d as [y m dd]; cbn [year month day] in *.
  unfold next_day; cbn [year month day].
  destruct (dd <? _days_in_month y m) eqn:E.
  - unfold toordinal; cbn [year month day]. lia.
  - apply Z.ltb_ge in E. assert (dd = _days_in_month y m) by lia. subst dd.
    destruct (m <? 12) eqn:E12.
    + apply Z.ltb_lt in E12. unfold toordinal; cbn [year month day].
      unfold _days_before_month, _days_in_month.
      enum m 1%nat 11%nat; destruct (_is_leap y); simpl; lia.
    + apply Z.ltb_ge in E12. assert (m = 12) by lia. subst m.
      unfold toordinal; cbn [year month day].
      rewrite days_before_year_succ.
      unfold _days_before_month, _days_in_month.
      destruct (_is_leap y); simpl; lia.
Qed.

(** ** [_should_check] *)

Section ShouldCheck.

Variable self : UpdateNotifier.
Variable w : World.

Lemma should_check_parsed s content d :
  throttle_file s = Holds content ->
  Strptime.strptime (Str.strip content) = Some d ->
  _should_check self w s = (Ok (1 <? days_between (today w) d), s).
Proof.
  intros Hf Hp.
  unfold _should_check, try_except, bind, read_throttle, strptime.
  rewrite Hf, Hp. reflexivity.
Qed.

Lemma should_check_rejected s content :
  throttle_file s = Holds content ->
  Strptime.strptime (Str.strip content) = None ->
  _should_check self w s
  = (Ok true,
     after_debug self s
       (mkexn ValueError (strptime_error w (Str.strip content)))).
Proof.
  intros Hf Hp.
  unfold _should_check, try_except, bind, read_throttle, strptime, after_debug.
  rewrite Hf, Hp. cbn. destruct (DEBUG self); reflexivity.
Qed.

Lemma should_check_missing s e :
  throttle_file s = Unreadable e -> is_FileNotFoundError e = true ->
  _should_check self w s = (Ok true, after_debug self s e).
Proof.
  intros Hf He.
  unfold _should_check, try_except, bind, read_throttle, after_debug.
  rewrite Hf, He. destruct (DEBUG self); reflexivity.
Qed.

Lemma should_check_escapes s e :
  throttle_file s = Unreadable e -> is_FileNotFoundError e = false ->
  _should_check self w s = (Raise e, s).
Proof.
  intros Hf He.
  unfold _should_check, try_except, bind, read_throttle.
  rewrite Hf, He. reflexivity.
Qed.

End ShouldCheck.

(** C2: a throttle file holding a date of the calendar written as
    YYYY-MM-DD makes [_should_check] return false when that date is one
    day before today (by the difference of ordinals, and by the
    calendar's next day), true when it is two or more days before today,
    and false when it is today.  Nothing is printed. *)
Theorem C2_should_check_by_age self w s d :
  valid_date d = true ->
  throttle_file s = Holds (strftime d) ->
  (days_between (today w) d = 1 -> _should_check self w s = (Ok false, s))
  /\ (today w = next_day d -> _should_check self w s = (Ok false, s))
  /\ (2 <= days_between (today w) d -> _should_check self w s = (Ok true, s))
  /\ (today w = d -> _should_check self w s = (Ok false, s)).
Proof.
  intros V Hf.
  assert (H : _should_check self w s
              = (Ok (1 <? days_between (today w) d), s)).
  { apply (should_check_parsed self w s (strftime d) d Hf).
    rewrite (strip_strftime d V). apply strptime_strftime, V. }
  rewrite H. repeat split; intros E; do 2 f_equal.
  - rewrite E. reflexivity.
  - unfold days_between. rewrite E, (toordinal_next_day d V).
    apply Z.ltb_ge. lia.
  - apply Z.ltb_lt. lia.
  - unfold days_between. rewrite E. apply Z.ltb_ge. lia.
Qed.

Lemma C2_witness :
  let d := mkdate 2024 2 29 in
  let s := Sample.state (Holds "2024-02-29") in
  let w n := Sample.world n (Ok "1.0.0") "1.0.0" WriteOk in
  _should_check (Sample.notifier false) (w (mkdate 2024 3 1)) s = (Ok false, s)
  /\ _should_check (Sample.notifier false) (w (mkdate 2024 3 2)) s = (Ok true, s)
  /\ _should_check (Sample.notifier false) (w d) s = (Ok false, s).
Proof.
  intros d s w.
  pose proof (fun n => C2_should_check_by_age (Sample.notifier false) (w n) s d
                         eq_refl eq_refl) as H.
  split; [|split].
  - destruct (H (mkdate 2024 3 1)) as (_ & H2 & _). apply H2. reflexivity.
  - destruct (H (mkdate 2024 3 2)) as (_ & _ & H3 & _). apply H3.
    vm_compute. discriminate.
  - destruct (H d) as (_ & _ & _ & H4). apply H4. reflexivity.
Defined.

(** C3, as the code has it: when the throttle file is missing, or when
    [strptime] refuses its stripped content, [_should_check] returns
    true.  What [strptime] refuses is never in the form YYYY-MM-DD, but
    it also takes texts that are not, with a month or day of one digit. *)
Theorem C3_should_check_unparseable self w s :
  (exists e, throttle_file s = Unreadable e /\ class e = FileNotFoundError)
  \/ (exists content, throttle_file s = Holds content
                      /\ Strptime.strptime (Str.strip content) = None) ->
  fst (_should_check self w s) = Ok true.
Proof.
  intros [(e & Hf & He) | (content & Hf & Hp)].
  - rewrite (should_check_missing self w s e Hf); [reflexivity|].
    unfold is_FileNotFoundError. rewrite He. reflexivity.
  - rewrite (should_check_rejected self w s content Hf Hp). reflexivity.
Qed.

Lemma C3_witness :
  fst (_should_check (Sample.notifier true)
         (Sample.world (mkdate 2024 3 1) (Ok "1.0.0") "1.0.0" WriteOk)
         (Sample.state Sample.missing)) = Ok true
  /\ fst (_should_check (Sample.notifier true)
            (Sample.world (mkdate 2024 3 1) (Ok "1.0.0") "1.0.0" WriteOk)
            (Sample.state (Holds "2024-02-30"))) = Ok true.
Proof.
  split.
  - apply C3_should_check_unparseable. left.
    eexists. split; reflexivity.
  - apply C3_should_check_unparseable. right.
    eexists. split; reflexivity.
Defined.

(** C3, as stated, fails: the content 2024-1-5 is not in the form
    YYYY-MM-DD, yet [strptime] reads it as the fifth of January, and on
    that day [_should_check] returns false. *)
Lemma C3_unpadded_date_is_parsed :
  let w := Sample.world (mkdate 2024 1 5) (Ok "1.0.0") "1.0.0" WriteOk in
  let s := Sample.state (Holds "2024-1-5") in
  is_YYYY_MM_DD (Str.strip "2024-1-5") = false
  /\ _should_check (Sample.notifier false) w s = (Ok false, s)
  /\ fst (_should_check (Sample.notifier false) w s) <> Ok true.
Proof.
  intros w s. split; [reflexivity|]. split; [reflexivity|].
  vm_compute. discriminate.
Qed.

(** C10: [_should_check] strips the white space around the content
    before it parses it: a file holding a date written as YYYY-MM-DD
    between runs of white space, such as one trailing newline, is read
    as that date, where the unstripped text with the newline would have
    been refused. *)
Theorem C10_should_check_strips self w s d before after :
  valid_date d = true ->
  Str.all_space before = true -> Str.all_space after = true ->
  throttle_file s = Holds (before ++ strftime d ++ after) ->
  Str.strip (before ++ strftime d ++ after) = strftime d
  /\ _should_check self w s = (Ok (1 <? days_between (today w) d), s)
  /\ Strptime.strptime (strftime d ++ Str.nl) = None.
Proof.
  intros V Hb Ha Hf.
  assert (E : Str.strip (before ++ strftime d ++ after) = strftime d)
    by (apply strip_surrounded; auto using no_space_strftime).
  split; [exact E|]. split.
  - apply (should_check_parsed self w s _ d Hf).
    rewrite E. apply strptime_strftime, V.
  - apply strptime_trailing, V.
Qed.

Lemma C10_witness :
  let s := Sample.state (Holds ("2024-02-29" ++ Str.nl)) in
  _should_check (Sample.notifier false)
    (Sample.world (mkdate 2024 3 1) (Ok "1.0.0") "1.0.0" WriteOk) s
  = (Ok false, s).
Proof.
  intros s.
  exact (proj1 (proj2
    (C10_should_check_strips (Sample.notifier false)
       (Sample.world (mkdate 2024 3 1) (Ok "1.0.0") "1.0.0" WriteOk) s
       (mkdate 2024 2 29) "" Str.nl eq_refl eq_refl eq_refl eq_refl))).
Defined.

(** ** The scans of [_get_feed_id] and [_get_latest_version] *)

Lemma for_feed_in_first self before feed after :
  feed_name_of feed = feed_name self ->
  (forall f, In f before -> feed_name_of f <> feed_name self) ->
  for_feed_in self (before ++ feed :: after) = Some (id feed).
Proof.
  intros Hfeed. induction before as [|f before IH]; intros Hb; cbn.
  - rewrite Hfeed, String.eqb_refl. reflexivity.
  - destruct (String.eqb_spec (feed_name_of f) (feed_name self)) as [E|_].
    + exfalso. apply (Hb f); [left; reflexivity | exact E].
    + apply IH. intros g Hg. apply Hb. right. exact Hg.
Qed.

Lemma for_feed_in_none self feeds :
  (forall f, In f feeds -> feed_name_of f <> feed_name self) ->
  for_feed_in self feeds = None.
Proof.
  induction feeds as [|f feeds IH]; intros H; cbn; [reflexivity|].
  destruct (String.eqb_spec (feed_name_of f) (feed_name self)) as [E|_].
  - exfalso. apply (H f); [left; reflexivity | exact E].
  - apply IH. intros g Hg. apply H. right. exact Hg.
Qed.

Lemma for_v_in_first before v after :
  is_latest v = true ->
  (forall u, In u before -> is_latest u = false) ->
  for_v_in (before ++ v :: after) = Some (version v).
Proof.
  intros Hv. induction before as [|u before IH]; intros Hb; cbn.
  - rewrite Hv. reflexivity.
  - rewrite (Hb u) by (left; reflexivity).
    apply IH. intros x Hx. apply Hb. right. exact Hx.
Qed.

(** C7: whatever list of feeds the service returns, [_get_feed_id]
    returns the id of the first feed of the list whose name equals the
    configured feed name, and raises the lookup error when no feed of the
    list has that name. *)
Theorem C7_get_feed_id_first_match self w s s1 client feeds :
  _get_feed_client self w s = (Ok client, s1) ->
  get_feeds w client (project self) = Ok feeds ->
  (forall before feed after,
      feeds = (before ++ feed :: after)%list ->
      feed_name_of feed = feed_name self ->
      (forall f, In f before -> feed_name_of f <> feed_name self) ->
      _get_feed_id self w s = (Ok (id feed), s1))
  /\ ((forall f, In f feeds -> feed_name_of f <> feed_name self) ->
      _get_feed_id self w s
      = (Raise (mkexn Exception_
                  ("Error getting feed id for feed name '" ++ feed_name self
                   ++ "'")), s1)).
Proof.
  intros Hc Hfeeds. split.
  - intros before feed after -> Hname Hbefore.
    unfold _get_feed_id, bind, call. rewrite Hc, Hfeeds.
    rewrite (for_feed_in_first self before feed after Hname Hbefore).
    reflexivity.
  - intros Hnone.
    unfold _get_feed_id, bind, call. rewrite Hc, Hfeeds.
    rewrite (for_feed_in_none self feeds Hnone). reflexivity.
Qed.

Lemma C7_witness :
  let w := Sample.world (mkdate 2024 3 1) (Ok "1.0.0") "1.0.0" WriteOk in
  let s := Sample.state Sample.missing in
  _get_feed_id (Sample.notifier false) w s
  = (Ok "id-1", mkState [] Sample.missing (Some (feed_client 0))).
Proof.
  intros w s.
  refine (proj1 (C7_get_feed_id_first_match (Sample.notifier false) w s _
                   (feed_client 0) Sample.feeds eq_refl eq_refl)
            [mkFeed "Feed" "id-0"] (mkFeed "feed" "id-1")
            [mkFeed "feed" "id-2"] eq_refl eq_refl _).
  intros f [<-|[]]. cbn. discriminate.
Defined.

(** C9: [_get_latest_version] returns the version string of the first
    entry, in list order, that carries the [is_latest] flag, whatever
    follows it, other flagged entries included. *)
Theorem C9_latest_version_first_flagged self w s s1 package before v after :
  _get_package_info self w s = (Ok package, s1) ->
  versions package = (before ++ v :: after)%list ->
  is_latest v = true ->
  (forall u, In u before -> is_latest u = false) ->
  _get_latest_version self w s = (Ok (Some (version v)), s1).
Proof.
  intros Hp Hvs Hv Hbefore.
  unfold _get_latest_version, bind, ret. rewrite Hp, Hvs.
  rewrite (for_v_in_first before v after Hv Hbefore). reflexivity.
Qed.

Lemma C9_witness :
  let w := Sample.world (mkdate 2024 3 1) (Ok "1.0.0") "1.2.0" WriteOk in
  _get_latest_version (Sample.notifier false) w (Sample.state Sample.missing)
  = (Ok (Some "1.2.0"), mkState [] Sample.missing (Some (feed_client 0))).
Proof.
  intros w.
  refine (C9_latest_version_first_flagged (Sample.notifier false) w
            (Sample.state Sample.missing) _
            (mkPackage "pkg"
               [mkVersion "0.9.0" false; mkVersion "1.2.0" true;
                mkVersion "9.9" true])
            [mkVersion "0.9.0" false] (mkVersion "1.2.0" true)
            [mkVersion "9.9" true] eq_refl eq_refl eq_refl _).
  intros u [<-|[]]. reflexivity.
Defined.

(** ** What the methods leave alone *)

Lemma quiet_ret {A} (a : A) : quiet (ret a).
Proof. intros s. split; reflexivity. Qed.

Lemma quiet_raise {A} (e : exn) : quiet (@raise A e).
Proof. intros s. split; reflexivity. Qed.

Lemma quiet_call {A} (r : result A) : quiet (call r).
Proof. intros s. split; reflexivity. Qed.

Lemma quiet_bind {A B} (m : M A) (k : A -> M B) :
  quiet m -> (forall a, quiet (k a)) -> quiet (bind m k).
Proof.
  intros Hm Hk s. unfold bind. specialize (Hm s).
  destruct (m s) as [[a|e] s1]; cbn [snd] in *.
  - destruct (Hk a s1) as [Hc Hf]. rewrite Hc, Hf. exact Hm.
  - exact Hm.
Qed.

Create HintDb quiet.
#[local] Hint Resolve quiet_ret quiet_raise quiet_call : quiet.

Lemma quiet_get_pat self w : quiet (_get_pat self w).
Proof.
  unfold _get_pat. apply quiet_bind; auto with quiet.
  intros [p|]; auto with quiet.
Qed.

Lemma quiet_get_feed_client self w : quiet (_get_feed_client self w).
Proof.
  intros s. unfold _get_feed_client.
  destruct (_feed_client s); [split; reflexivity|].
  unfold bind. pose proof (quiet_get_pat self w s) as Hp.
  destruct (_get_pat self w s) as [[pat|e] s1]; cbn [snd] in *; [|exact Hp].
  unfold call. destruct (connect w _ _ pat); cbn; exact Hp.
Qed.

Lemma quiet_get_feed_id self w : quiet (_get_feed_id self w).
Proof.
  unfold _get_feed_id.
  apply quiet_bind; [apply quiet_get_feed_client|]. intros c.
  apply quiet_bind; auto with quiet. intros feeds.
  destruct (for_feed_in self feeds); auto with quiet.
Qed.

Lemma quiet_get_package_info self w : quiet (_get_package_info self w).
Proof.
  unfold _get_package_info.
  apply quiet_bind; [apply quiet_get_feed_client|]. intros c.
  apply quiet_bind; [apply quiet_get_feed_id|]. intros i.
  apply quiet_bind; auto with quiet. intros ps.
  destruct (for_package_in self ps); auto with quiet.
Qed.

Lemma quiet_get_latest_version self w : quiet (_get_latest_version self w).
Proof.
  unfold _get_latest_version.
  apply quiet_bind; [apply quiet_get_package_info|]. auto with quiet.
Qed.

Lemma get_latest_version_frame self w s r s' :
  _get_latest_version self w s = (r, s') ->
  console s' = console s /\ throttle_file s' = throttle_file s.
Proof.
  intros H. pose proof (quiet_get_latest_version self w s) as Q.
  rewrite H in Q. exact Q.
Qed.

(** ** The lines on the console *)

Lemma printed_refl P s : printed P s s.
Proof. exists []. split; [symmetry; apply app_nil_r | constructor]. Qed.

Lemma printed_same_console P s s' : console s' = console s -> printed P s s'.
Proof.
  intros E. exists []. split; [rewrite E; symmetry; apply app_nil_r|].
  constructor.
Qed.

Lemma printed_trans P s1 s2 s3 :
  printed P s1 s2 -> printed P s2 s3 -> printed P s1 s3.
Proof.
  intros (l1 & E1 & F1) (l2 & E2 & F2). exists (l1 ++ l2)%list. split.
  - rewrite E2, E1, app_assoc. reflexivity.
  - apply Forall_app. split; assumption.
Qed.

Lemma printed_weaken (P Q : string -> Prop) s s' :
  (forall line, P line -> Q line) -> printed P s s' -> printed Q s s'.
Proof.
  intros H (l & E & F). exists l. split; [exact E|].
  eapply Forall_impl; eauto.
Qed.

Lemma red_debug_line e : red_line (debug_line e).
Proof. eexists. reflexivity. Qed.

Lemma red_error_message self : red_line (error_message self).
Proof. eexists. reflexivity. Qed.

Lemma red_error_detail e : red_line (error_detail e).
Proof. eexists. reflexivity. Qed.

Lemma red_current_version_warning self :
  red_line (current_version_warning self).
Proof. eexists. reflexivity. Qed.

Lemma red_last_checked_warning : red_line last_checked_warning.
Proof. eexists. reflexivity. Qed.

(** No line that reports a comparison opens in red. *)
Lemma red_line_not_comparison self line :
  red_line line -> ~ comparison_line self line.
Proof.
  intros (rest & ->) [(c & H) | [(c & l & H) | (l & H)]];
    cbn in H; discriminate H.
Qed.

Lemma printed_after_debug self s e : printed red_line s (after_debug self s e).
Proof.
  unfold after_debug. destruct (DEBUG self); [|apply printed_refl].
  exists [debug_line e]. split; [reflexivity|].
  constructor; [apply red_debug_line | constructor].
Qed.

(** [_should_check] raises only what reading the file raised, prints
    debug lines at most and leaves the file and the client alone. *)
Lemma should_check_frame self w s r s1 :
  _should_check self w s = (r, s1) ->
  printed red_line s s1 /\ throttle_file s1 = throttle_file s
  /\ _feed_client s1 = _feed_client s.
Proof.
  intros H. destruct (throttle_file s) as [e|content] eqn:Hf.
  - destruct (is_FileNotFoundError e) eqn:He.
    + rewrite (should_check_missing self w s e Hf He) in H.
      injection H as _ <-. split; [apply printed_after_debug|].
      unfold after_debug. destruct (DEBUG self); split; auto.
    + rewrite (should_check_escapes self w s e Hf He) in H.
      injection H as _ <-. split; [apply printed_refl|]. rewrite Hf. auto.
  - destruct (Strptime.strptime (Str.strip content)) as [d|] eqn:Hp.
    + rewrite (should_check_parsed self w s content d Hf Hp) in H.
      injection H as _ <-. split; [apply printed_refl|]. rewrite Hf. auto.
    + rewrite (should_check_rejected self w s content Hf Hp) in H.
      injection H as _ <-. split; [apply printed_after_debug|].
      unfold after_debug. destruct (DEBUG self); split; auto.
Qed.

(** ** [check_for_update], step by step *)

Section Check.

Variable self : UpdateNotifier.
Variable w : World.

Lemma get_current_version_found s v :
  Distribution_from_name w (package_name self) = Ok v ->
  _get_current_version self w s = (Ok (Some v), s).
Proof.
  intros H. unfold _get_current_version, try_except, bind, call.
  rewrite H. reflexivity.
Qed.

Lemma get_current_version_unknown s e :
  Distribution_from_name w (package_name self) = Raise e ->
  _get_current_version self w s = (Ok None, warned self s e).
Proof.
  intros H. unfold _get_current_version, try_except, bind, call, warned.
  rewrite H. cbn. unfold with_console.
  destruct (DEBUG self); cbn; [rewrite <- app_assoc|]; reflexivity.
Qed.

Lemma handler_result s e :
  (print (error_message self) ;;
   when (DEBUG self) (print (error_detail e))) s
  = (Ok tt, handled self s e).
Proof.
  unfold bind, print, when, handled, with_console.
  destruct (DEBUG self); cbn; [rewrite <- app_assoc|]; reflexivity.
Qed.

Lemma check_for_update_skips s s1 :
  _should_check self w s = (Ok false, s1) ->
  check_for_update self w s = (Ok tt, s1).
Proof. intros H. unfold check_for_update, bind. rewrite H. reflexivity. Qed.

Lemma check_for_update_escapes s e s1 :
  _should_check self w s = (Raise e, s1) ->
  check_for_update self w s = (Raise e, s1).
Proof. intros H. unfold check_for_update, bind. rewrite H. reflexivity. Qed.

Lemma check_for_update_checks s s1 :
  _should_check self w s = (Ok true, s1) ->
  check_for_update self w s
  = match check_body self w s1 with
    | (Ok _, s') => (Ok tt, s')
    | (Raise e, s') => (Ok tt, handled self s' e)
    end.
Proof.
  intros H. unfold check_for_update. unfold bind at 1. rewrite H.
  unfold try_except. destruct (check_body self w s1) as [[[]|e] s'].
  - reflexivity.
  - unfold is_Exception. apply handler_result.
Qed.

Lemma check_body_remote_fails s1 e s2 :
  _get_latest_version self w s1 = (Raise e, s2) ->
  check_body self w s1 = (Raise e, s2).
Proof. intros H. unfold check_body, bind. rewrite H. reflexivity. Qed.

Lemma check_body_no_latest s1 s2 :
  _get_latest_version self w s1 = (Ok None, s2) ->
  check_body self w s1 = (Ok tt, snd (_get_current_version self w s2)).
Proof.
  intros H. unfold check_body. unfold bind at 1. rewrite H. unfold bind.
  destruct (Distribution_from_name w (package_name self)) as [v|e] eqn:E.
  - rewrite (get_current_version_found s2 v E). reflexivity.
  - rewrite (get_current_version_unknown s2 e E). reflexivity.
Qed.

Lemma check_body_no_current s1 latest s2 e :
  _get_latest_version self w s1 = (Ok latest, s2) ->
  Distribution_from_name w (package_name self) = Raise e ->
  check_body self w s1 = (Ok tt, warned self s2 e).
Proof.
  intros H E. unfold check_body. unfold bind at 1. rewrite H. unfold bind.
  rewrite (get_current_version_unknown s2 e E). reflexivity.
Qed.

Lemma check_body_invalid_current s1 latest s2 current :
  _get_latest_version self w s1 = (Ok (Some latest), s2) ->
  Distribution_from_name w (package_name self) = Ok current ->
  Version.parse current = None ->
  check_body self w s1
  = (Raise (mkexn InvalidVersion ("Invalid version: '" ++ current ++ "'")),
     s2).
Proof.
  intros H E P. unfold check_body. unfold bind at 1. rewrite H.
  unfold bind at 1. rewrite (get_current_version_found s2 current E).
  unfold bind, version_parse. rewrite P. reflexivity.
Qed.

Lemma check_body_invalid_latest s1 latest s2 current c :
  _get_latest_version self w s1 = (Ok (Some latest), s2) ->
  Distribution_from_name w (package_name self) = Ok current ->
  Version.parse current = Some c ->
  Version.parse latest = None ->
  check_body self w s1
  = (Raise (mkexn InvalidVersion ("Invalid version: '" ++ latest ++ "'")),
     s2).
Proof.
  intros H E Pc Pl. unfold check_body. unfold bind at 1. rewrite H.
  unfold bind at 1. rewrite (get_current_version_found s2 current E).
  unfold bind, version_parse. rewrite Pc, Pl. reflexivity.
Qed.

Lemma check_body_compares s1 latest s2 current c l :
  _get_latest_version self w s1 = (Ok (Some latest), s2) ->
  Distribution_from_name w (package_name self) = Ok current ->
  Version.parse current = Some c ->
  Version.parse latest = Some l ->
  check_body self w s1
  = _update_last_checked self w
      (with_console s2 (console s2 ++ report self current latest c l)).
Proof.
  intros H E Pc Pl. unfold check_body. unfold bind at 1. rewrite H.
  unfold bind at 1. rewrite (get_current_version_found s2 current E).
  unfold bind, version_parse, report. rewrite Pc, Pl. unfold ret.
  destruct (Version.ge c l); cbn; unfold with_console; cbn;
    [|rewrite <- app_assoc]; reflexivity.
Qed.

(** [_update_last_checked] writes or warns. *)
Lemma update_last_checked_effect s :
  exists r s',
    _update_last_checked self w s = (r, s')
    /\ printed red_line s s'
    /\ throttle_file s' = written w (throttle_file s)
    /\ (write_throttle w = WriteOk -> r = Ok tt /\ console s' = console s).
Proof.
  assert (Hwarn : forall f e,
             printed red_line s
               (snd ((print last_checked_warning ;;
                      when (DEBUG self) (print (debug_line e)))
                       (mkState (console s) f (_feed_client s))))).
  { intros f e. unfold bind, print, when.
    destruct (DEBUG self); cbn.
    - exists [last_checked_warning; debug_line e]. split.
      + rewrite <- app_assoc. reflexivity.
      + repeat constructor;
          [apply red_last_checked_warning | apply red_debug_line].
    - exists [last_checked_warning]. split; [reflexivity|].
      repeat constructor. apply red_last_checked_warning. }
  assert (Hfile : forall f e,
             throttle_file
               (snd ((print last_checked_warning ;;
                      when (DEBUG self) (print (debug_line e)))
                       (mkState (console s) f (_feed_client s)))) = f).
  { intros f e. unfold bind, print, when. destruct (DEBUG self); reflexivity. }
  unfold _update_last_checked, try_except, write_throttle_file, written.
  destruct (write_throttle w) as [|e|e].
  - do 2 eexists. split; [reflexivity|].
    split; [apply printed_same_console; reflexivity|].
    split; [reflexivity|]. intros _. split; reflexivity.
  - destruct (is_IOError e).
    + specialize (Hwarn (throttle_file s) e).
      specialize (Hfile (throttle_file s) e).
      replace (mkState (console s) (throttle_file s) (_feed_client s))
        with s in * by (destruct s; reflexivity).
      destruct ((print last_checked_warning ;;
                 when (DEBUG self) (print (debug_line e))) s) as [r s'].
      exists r, s'. split; [reflexivity|]. split; [exact Hwarn|].
      split; [exact Hfile | discriminate].
    + do 2 eexists. split; [reflexivity|].
      split; [apply printed_refl|]. split; [reflexivity | discriminate].
  - destruct (is_IOError e).
    + specialize (Hwarn (Holds "") e). specialize (Hfile (Holds "") e).
      destruct ((print last_checked_warning ;;
                 when (DEBUG self) (print (debug_line e))) _) as [r s'].
      exists r, s'. split; [reflexivity|]. split; [exact Hwarn|].
      split; [exact Hfile | discriminate].
    + do 2 eexists. split; [reflexivity|].
      split; [apply printed_same_console; reflexivity|].
      split; [reflexivity | discriminate].
Qed.

Lemma printed_handled s e : printed red_line s (handled self s e).
Proof.
  unfold handled. eexists. split; [reflexivity|].
  destruct (DEBUG self); repeat constructor;
    [apply red_error_message | apply red_error_detail | apply red_error_message].
Qed.

Lemma printed_warned s e : printed red_line s (warned self s e).
Proof.
  unfold warned. eexists. split; [reflexivity|].
  destruct (DEBUG self); repeat constructor;
    [apply red_current_version_warning | apply red_debug_line
    | apply red_current_version_warning].
Qed.

End Check.

(** ** [check_for_update], as a whole *)

Lemma get_current_version_frame self w s r s' :
  _get_current_version self w s = (r, s') ->
  printed red_line s s' /\ throttle_file s' = throttle_file s.
Proof.
  destruct (Distribution_from_name w (package_name self)) as [v|e] eqn:E.
  - rewrite (get_current_version_found self w s v E). intros [= _ <-].
    split; [apply printed_refl | reflexivity].
  - rewrite (get_current_version_unknown self w s e E). intros [= _ <-].
    split; [apply printed_warned | reflexivity].
Qed.

(** After a completed comparison: the report, then the write. *)
Lemma check_for_update_compared self w s s1 s2 current latest c l :
  _should_check self w s = (Ok true, s1) ->
  _get_latest_version self w s1 = (Ok (Some latest), s2) ->
  Distribution_from_name w (package_name self) = Ok current ->
  Version.parse current = Some c ->
  Version.parse latest = Some l ->
  reports self w s s2 (report self current latest c l)
  /\ throttle_file (snd (check_for_update self w s))
     = written w (throttle_file s).
Proof.
  intros H1 H2 H3 Pc Pl.
  destruct (should_check_frame self w s _ s1 H1) as (_ & F1 & _).
  destruct (get_latest_version_frame self w s1 _ s2 H2) as (_ & F2).
  pose proof (check_for_update_checks self w s s1 H1) as E.
  rewrite (check_body_compares self w s1 latest s2 current c l H2 H3 Pc Pl)
    in E.
  destruct (update_last_checked_effect self w
              (with_console s2 (console s2 ++ report self current latest c l)))
    as (r & s' & Eu & (rest & Ec & Fr) & Ff & Kok).
  rewrite Eu in E. cbn [with_console console throttle_file] in Ec, Ff.
  rewrite F2, F1 in Ff.
  destruct r as [[]|e].
  - split.
    + exists s', rest. split; [exact E|]. split.
      * rewrite Ec, <- app_assoc. reflexivity.
      * split; [exact Fr|]. intros Hw. destruct (Kok Hw) as (_ & Kc).
        cbn [with_console console] in Kc. rewrite Kc in Ec.
        rewrite <- (app_nil_r (console s2 ++ _)) in Ec at 1.
        apply app_inv_head in Ec. symmetry. exact Ec.
    + rewrite E. exact Ff.
  - split.
    + exists (handled self s' e),
        (rest ++ error_message self
                 :: (if DEBUG self then [error_detail e] else []))%list.
      split; [exact E|]. split.
      * unfold handled. cbn [with_console console]. rewrite Ec.
        rewrite <- !app_assoc. reflexivity.
      * split.
        -- apply Forall_app. split; [exact Fr|].
           destruct (DEBUG self); repeat constructor;
             [apply red_error_message | apply red_error_detail
             | apply red_error_message].
        -- intros Hw. destruct (Kok Hw) as (K & _). discriminate K.
    + rewrite E. exact Ff.
Qed.

(** [check_for_update] returns normally once [_should_check] has. *)
Lemma check_for_update_returns self w s go s1 :
  _should_check self w s = (Ok go, s1) ->
  exists s', check_for_update self w s = (Ok tt, s').
Proof.
  intros H. destruct go.
  - rewrite (check_for_update_checks self w s s1 H).
    destruct (check_body self w s1) as [[[]|e] s']; eexists; reflexivity.
  - rewrite (check_for_update_skips self w s s1 H). eexists. reflexivity.
Qed.

(** An exception leaves [check_for_update] exactly when reading the
    throttle file raises something other than [FileNotFoundError]. *)
Lemma check_for_update_raises_iff self w s e :
  (exists s', check_for_update self w s = (Raise e, s'))
  <-> (throttle_file s = Unreadable e /\ is_FileNotFoundError e = false).
Proof.
  split.
  - intros (s' & H).
    destruct (throttle_file s) as [e0|content] eqn:Hf.
    + destruct (is_FileNotFoundError e0) eqn:He.
      * pose proof (should_check_missing self w s e0 Hf He) as Hs.
        destruct (check_for_update_returns self w s _ _ Hs) as (s'' & E).
        rewrite E in H. discriminate H.
      * pose proof (should_check_escapes self w s e0 Hf He) as Hs.
        rewrite (check_for_update_escapes self w s e0 s Hs) in H.
        injection H as -> _. split; [reflexivity | exact He].
    + assert (Hs : exists go s1, _should_check self w s = (Ok go, s1)).
      { destruct (Strptime.strptime (Str.strip content)) as [d|] eqn:Hp.
        - rewrite (should_check_parsed self w s content d Hf Hp).
          do 2 eexists. reflexivity.
        - rewrite (should_check_rejected self w s content Hf Hp).
          do 2 eexists. reflexivity. }
      destruct Hs as (go & s1 & Hs).
      destruct (check_for_update_returns self w s _ _ Hs) as (s'' & E).
      rewrite E in H. discriminate H.
  - intros (Hf & He). exists s.
    apply check_for_update_escapes, should_check_escapes; assumption.
Qed.

(** C1 fails where the throttle file exists but may not be read: [open]
    raises [PermissionError]; [_should_check] catches
    [FileNotFoundError] only and is called before the [try] of
    [check_for_update], so the exception reaches the caller and nothing
    is printed.  This is the one way out for an exception: it leaves
    [check_for_update] exactly when reading the throttle file raises
    something other than [FileNotFoundError]; in every other state,
    whatever the collaborators answer, [check_for_update] returns
    normally. *)
Theorem C1_unreadable_throttle_file_escapes :
  (let self := Sample.notifier false in
   let w := Sample.world (mkdate 2024 3 1) (Ok "1.0.0") "1.2.0" WriteOk in
   let s := Sample.state (Unreadable Sample.denied) in
   check_for_update self w s = (Raise Sample.denied, s))
  /\ (forall self w s e,
         (exists s', check_for_update self w s = (Raise e, s'))
         <-> (throttle_file s = Unreadable e
              /\ is_FileNotFoundError e = false))
  /\ (forall self w s,
         (forall e, throttle_file s = Unreadable e ->
                    is_FileNotFoundError e = true) ->
         exists s', check_for_update self w s = (Ok tt, s')).
Proof.
  split; [reflexivity|]. split; [exact check_for_update_raises_iff|].
  intros self w s H.
  destruct (check_for_update self w s) as [[[]|e] s'] eqn:E.
  - exists s'. reflexivity.
  - exfalso.
    destruct (proj1 (check_for_update_raises_iff self w s e)
                (ex_intro _ s' E)) as (Hf & He).
    rewrite (H e Hf) in He. discriminate He.
Qed.



Lemma comparison_completes_inv self w s :
  comparison_completes self w s = true ->
  exists s1 s2 current latest c l,
    _should_check self w s = (Ok true, s1)
    /\ _get_latest_version self w s1 = (Ok (Some latest), s2)
    /\ Distribution_from_name w (package_name self) = Ok current
    /\ Version.parse current = Some c
    /\ Version.parse latest = Some l.
Proof.
  unfold comparison_completes.
  destruct (_should_check self w s) as [[[|]|e] s1] eqn:H1;
    try discriminate.
  destruct (_get_latest_version self w s1) as [[[latest|]|e] s2] eqn:H2;
    try discriminate.
  destruct (Distribution_from_name w (package_name self)) as [current|e]
    eqn:H3; try discriminate.
  destruct (Version.parse current) as [c|] eqn:Pc; try discriminate.
  destruct (Version.parse latest) as [l|] eqn:Pl; try discriminate.
  intros _. exists s1, s2, current, latest, c, l.
  repeat split; reflexivity || assumption.
Qed.

(** After a completed comparison whose write raises an operating-system
    error: the report, then the warning of [_update_last_checked]. *)
Lemma check_for_update_write_refused self w s s1 s2 current latest c l e :
  _should_check self w s = (Ok true, s1) ->
  _get_latest_version self w s1 = (Ok (Some latest), s2) ->
  Distribution_from_name w (package_name self) = Ok current ->
  Version.parse current = Some c ->
  Version.parse latest = Some l ->
  write_throttle w = WriteFailsBeforeOpen e
  \/ write_throttle w = WriteFailsAfterOpen e ->
  is_IOError e = true ->
  check_for_update self w s
  = (Ok tt,
     mkState
       (console s2 ++ report self current latest c l
        ++ last_checked_warning
           :: (if DEBUG self then [debug_line e] else []))
       (written w (throttle_file s2)) (_feed_client s2)).
Proof.
  intros H1 H2 H3 Pc Pl Hw He.
  rewrite (check_for_update_checks self w s s1 H1),
    (check_body_compares self w s1 latest s2 current c l H2 H3 Pc Pl).
  unfold _update_last_checked, try_except, write_throttle_file, written.
  destruct Hw as [Hw|Hw]; rewrite Hw, He;
    unfold bind, print, when, with_console;
    destruct (DEBUG self); cbn; rewrite <- !app_assoc; reflexivity.
Qed.

(** C5, as the code has it: after [check_for_update] the throttle file
    is what the write of today's date left (today's date once the file
    system took the write, the old file when [makedirs] or [open]
    failed, an empty file when the write failed after [open]) exactly
    when a comparison completed; in every other case (the check skipped
    by the throttle, a version unresolved or unparseable, a remote call
    failed, the file unreadable) it is the file as it was.  When the
    comparison completed and the write raises an operating-system error,
    [check_for_update] still returns normally and the last thing on the
    console is the warning of [_update_last_checked], followed under
    [DEBUG] by the error. *)
Theorem C5_throttle_file_after_check self w s :
  throttle_file (snd (check_for_update self w s))
  = (if comparison_completes self w s
     then match write_throttle w with
          | WriteOk => Holds (strftime (today w))
          | WriteFailsBeforeOpen _ => throttle_file s
          | WriteFailsAfterOpen _ => Holds ""
          end
     else throttle_file s)
  /\ (forall e,
         comparison_completes self w s = true ->
         write_throttle w = WriteFailsBeforeOpen e
         \/ write_throttle w = WriteFailsAfterOpen e ->
         is_IOError e = true ->
         exists s' prior,
           check_for_update self w s = (Ok tt, s')
           /\ console s'
              = (console s ++ prior
                 ++ last_checked_warning
                    :: (if DEBUG self then [debug_line e] else []))%list).
Proof.
  split.
  {
  change (throttle_file (snd (check_for_update self w s))
          = if comparison_completes self w s
            then written w (throttle_file s) else throttle_file s).
  unfold comparison_completes.
  destruct (_should_check self w s) as [[[|]|e] s1] eqn:H1;
    destruct (should_check_frame self w s _ s1 H1) as (_ & F1 & _).
  - destruct (_get_latest_version self w s1) as [[[latest|]|e] s2] eqn:H2;
      destruct (get_latest_version_frame self w s1 _ s2 H2) as (_ & F2).
    + destruct (Distribution_from_name w (package_name self))
        as [current|e] eqn:H3.
      * destruct (Version.parse current) as [c|] eqn:Pc;
          [destruct (Version.parse latest) as [l|] eqn:Pl|].
        -- apply (check_for_update_compared self w s s1 s2 current latest c l);
             assumption.
        -- rewrite (check_for_update_checks self w s s1 H1),
             (check_body_invalid_latest self w s1 latest s2 current c H2 H3
                Pc Pl).
           cbn. congruence.
        -- rewrite (check_for_update_checks self w s s1 H1),
             (check_body_invalid_current self w s1 latest s2 current H2 H3 Pc).
           cbn. congruence.
      * rewrite (check_for_update_checks self w s s1 H1),
          (check_body_no_current self w s1 _ s2 e H2 H3).
        cbn. congruence.
    + rewrite (check_for_update_checks self w s s1 H1),
        (check_body_no_latest self w s1 s2 H2).
      destruct (_get_current_version self w s2) as [r s3] eqn:H3.
      destruct (get_current_version_frame self w s2 r s3 H3) as (_ & F3).
      cbn. congruence.
    + rewrite (check_for_update_checks self w s s1 H1),
        (check_body_remote_fails self w s1 e s2 H2).
      cbn. congruence.
  - rewrite (check_for_update_skips self w s s1 H1). exact F1.
  - rewrite (check_for_update_escapes self w s e s1 H1). exact F1.
  }
  intros e Hc Hw He.
  destruct (comparison_completes_inv self w s Hc)
    as (s1 & s2 & current & latest & c & l & H1 & H2 & H3 & Pc & Pl).
  destruct (should_check_frame self w s _ s1 H1) as ((l1 & E1 & _) & _).
  destruct (get_latest_version_frame self w s1 _ s2 H2) as (E2 & _).
  eexists. exists (l1 ++ report self current latest c l)%list. split.
  - apply (check_for_update_write_refused self w s s1 s2 current latest c l e);
      assumption.
  - cbn [console]. rewrite E2, E1, <- !app_assoc. reflexivity.
Qed.

(** C5, as stated, fails: the comparison completes and is reported, the
    write of the date is refused, the warning is printed, and the
    throttle file still holds its old date, not today's. *)
Lemma C5_refused_write_keeps_old_date :
  let self := Sample.notifier false in
  let w := Sample.world (mkdate 2024 3 1) (Ok "1.0.0") "1.0.0"
             (WriteFailsBeforeOpen Sample.denied) in
  let s := Sample.state (Holds "2024-01-01") in
  comparison_completes self w s = true
  /\ check_for_update self w s
     = (Ok tt,
        mkState [up_to_date_message self "1.0.0"; last_checked_warning]
          (Holds "2024-01-01") (Some (feed_client 0)))
  /\ throttle_file (snd (check_for_update self w s))
     <> Holds (strftime (today w)).
Proof.
  intros self w s. split; [vm_compute; reflexivity|].
  split; [vm_compute; reflexivity|]. vm_compute. discriminate.
Qed.

(** C6: when the lookup in the distribution registry raises,
    [_get_current_version] catches the exception where it is raised,
    prints the warning (and the exception under [DEBUG]) and returns
    [None]; [check_for_update] then returns normally, with nothing but
    that on the console after the remote lookup, no line of the whole run
    reporting a comparison, and the throttle file as it was. *)
Theorem C6_unregistered_package self w s s1 s2 latest e :
  Distribution_from_name w (package_name self) = Raise e ->
  _should_check self w s = (Ok true, s1) ->
  _get_latest_version self w s1 = (Ok latest, s2) ->
  _get_current_version self w s2
  = (Ok None,
     with_console s2
       (console s2
        ++ current_version_warning self
           :: (if DEBUG self then [debug_line e] else [])))
  /\ check_for_update self w s
     = (Ok tt,
        with_console s2
          (console s2
           ++ current_version_warning self
              :: (if DEBUG self then [debug_line e] else [])))
  /\ printed (fun line => ~ comparison_line self line) s
       (snd (check_for_update self w s))
  /\ throttle_file (snd (check_for_update self w s)) = throttle_file s.
Proof.
  intros H3 H1 H2.
  change (with_console s2 _) with (warned self s2 e).
  destruct (should_check_frame self w s _ s1 H1) as (P1 & F1 & _).
  destruct (get_latest_version_frame self w s1 _ s2 H2) as (C2 & F2).
  assert (E : check_for_update self w s = (Ok tt, warned self s2 e)).
  { rewrite (check_for_update_checks self w s s1 H1),
      (check_body_no_current self w s1 latest s2 e H2 H3). reflexivity. }
  split; [apply get_current_version_unknown, H3|].
  split; [exact E|]. rewrite E. cbn [snd]. split.
  - apply (printed_weaken red_line); [apply red_line_not_comparison|].
    apply (printed_trans _ s s1); [exact P1|].
    apply (printed_trans _ s1 s2);
      [apply printed_same_console, C2 | apply printed_warned].
  - cbn. congruence.
Qed.

Lemma C6_witness :
  let self := Sample.notifier true in
  let w := Sample.world (mkdate 2024 3 1) (Raise Sample.not_found) "1.2.0"
             WriteOk in
  check_for_update self w (Sample.state (Holds "2024-01-01"))
  = (Ok tt,
     mkState [current_version_warning self; debug_line Sample.not_found]
       (Holds "2024-01-01") (Some (feed_client 0))).
Proof.
  intros self w.
  exact (proj1 (proj2
    (C6_unregistered_package self w (Sample.state (Holds "2024-01-01"))
       (Sample.state (Holds "2024-01-01"))
       (mkState [] (Holds "2024-01-01") (Some (feed_client 0)))
       (Some "1.2.0") Sample.not_found eq_refl eq_refl eq_refl))).
Defined.

(** C8, as the code has it: when both versions resolve and one of them
    is not a version for the parser, the [InvalidVersion] it raises is
    caught by the handler of [check_for_update], which prints the one
    error line, followed under [DEBUG] by one line with the text of the
    exception, and returns normally; the throttle file is not
    written. *)
Theorem C8_unparseable_version self w s s1 s2 current latest :
  _should_check self w s = (Ok true, s1) ->
  _get_latest_version self w s1 = (Ok (Some latest), s2) ->
  Distribution_from_name w (package_name self) = Ok current ->
  Version.parse current = None \/ Version.parse latest = None ->
  exists e,
    class e = InvalidVersion
    /\ check_body self w s1 = (Raise e, s2)
    /\ check_for_update self w s
       = (Ok tt,
          with_console s2
            (console s2
             ++ error_message self
                :: (if DEBUG self then [error_detail e] else [])))
    /\ throttle_file (snd (check_for_update self w s)) = throttle_file s.
Proof.
  intros H1 H2 H3 Hp.
  destruct (should_check_frame self w s _ s1 H1) as (_ & F1 & _).
  destruct (get_latest_version_frame self w s1 _ s2 H2) as (_ & F2).
  assert (Hb : exists e, class e = InvalidVersion
                         /\ check_body self w s1 = (Raise e, s2)).
  { destruct (Version.parse current) as [c|] eqn:Pc.
    - destruct Hp as [Hp|Hp]; [discriminate|].
      eexists. split;
        [|apply (check_body_invalid_latest self w s1 latest s2 current c);
          assumption].
      reflexivity.
    - eexists. split;
        [|apply (check_body_invalid_current self w s1 latest s2 current);
          assumption].
      reflexivity. }
  destruct Hb as (e & Hc & Hb). exists e.
  assert (E : check_for_update self w s = (Ok tt, handled self s2 e)).
  { rewrite (check_for_update_checks self w s s1 H1), Hb. reflexivity. }
  split; [exact Hc|]. split; [exact Hb|]. split; [exact E|].
  rewrite E. cbn. congruence.
Qed.

Lemma C8_witness :
  let self := Sample.notifier false in
  let w := Sample.world (mkdate 2024 3 1) (Ok "1.0.0") "latest" WriteOk in
  exists e,
    class e = InvalidVersion
    /\ check_for_update self w (Sample.state (Holds "2024-01-01"))
       = (Ok tt,
          mkState [error_message self] (Holds "2024-01-01")
            (Some (feed_client 0))).
Proof.
  intros self w.
  destruct (C8_unparseable_version self w (Sample.state (Holds "2024-01-01"))
              (Sample.state (Holds "2024-01-01"))
              (mkState [] (Holds "2024-01-01") (Some (feed_client 0)))
              "1.0.0" "latest" eq_refl eq_refl eq_refl
              (or_intror eq_refl))
    as (e & Hc & _ & E & _).
  exists e. split; [exact Hc | exact E].
Defined.

(** C8, as stated, fails: under [DEBUG] the handler prints two lines, the
    error line and the text of the exception. *)
Lemma C8_debug_prints_two_lines :
  let self := Sample.notifier true in
  let w := Sample.world (mkdate 2024 3 1) (Ok "1.0.0") "latest" WriteOk in
  let s := Sample.state (Holds "2024-01-01") in
  Version.parse "latest" = None
  /\ check_for_update self w s
     = (Ok tt,
        mkState
          [error_message self;
           error_detail (mkexn InvalidVersion "Invalid version: 'latest'")]
          (Holds "2024-01-01") (Some (feed_client 0)))
  /\ length (console (snd (check_for_update self w s))) <> 1%nat.
Proof.
  intros self w s. split; [vm_compute; reflexivity|].
  split; [vm_compute; reflexivity|]. vm_compute. discriminate.
Qed.

(** * Further properties *)

(** ** The feed client and the lookups *)

Lemma get_feed_client_cached self w s c :
  _feed_client s = Some c -> _get_feed_client self w s = (Ok c, s).
Proof. intros H. unfold _get_feed_client. rewrite H. reflexivity. Qed.

Lemma get_feed_client_result self w s c s1 :
  _get_feed_client self w s = (Ok c, s1) ->
  _feed_client s1 = Some c
  /\ console s1 = console s /\ throttle_file s1 = throttle_file s.
Proof.
  unfold _get_feed_client. destruct (_feed_client s) as [c0|] eqn:E.
  - intros [= <- <-]. auto.
  - unfold bind, _get_pat, call.
    destruct (get_credential w _ (username self)) as [[pat|]|e];
      [|discriminate..].
    cbn. destruct (connect w _ _ pat) as [c1|e]; [|discriminate].
    intros [= <- <-]. cbn. auto.
Qed.

(** X1: [_get_feed_client] is memoised.  Once a call has returned a
    client, the client is cached, and every later call returns that same
    client and leaves the state as it is, whatever the credential store
    and the service would answer by then; the call that made the client
    printed nothing and did not touch the throttle file. *)
Theorem X1_feed_client_memoised self w s c s1 :
  _get_feed_client self w s = (Ok c, s1) ->
  _feed_client s1 = Some c
  /\ console s1 = console s /\ throttle_file s1 = throttle_file s
  /\ (forall w', _get_feed_client self w' s1 = (Ok c, s1)).
Proof.
  intros H. destruct (get_feed_client_result self w s c s1 H) as (Hc & Hk & Hf).
  repeat split; try assumption.
  intros w'. apply get_feed_client_cached, Hc.
Qed.

Lemma X1_witness :
  let w := Scenario.fine (mkdate 2024 3 1) WriteOk in
  let w' := Scenario.world (mkdate 2024 3 9)
              (Raise (mkexn OtherException "keyring locked"))
              (Ok []) (Ok []) (Ok "1.2.0") WriteOk in
  _get_feed_client Scenario.self w'
    (mkState [] (Holds "2024-01-01") (Some (feed_client 7)))
  = (Ok (feed_client 7),
     mkState [] (Holds "2024-01-01") (Some (feed_client 7))).
Proof.
  intros w w'.
  exact (proj2 (proj2 (proj2
    (X1_feed_client_memoised Scenario.self w Scenario.old (feed_client 7)
       (mkState [] (Holds "2024-01-01") (Some (feed_client 7))) eq_refl)))
    w').
Defined.

(** X2: without a cached client, a credential store that knows no
    credential makes the whole remote lookup raise the exception
    [Error getting credential], and a store that raises makes it raise
    the store's exception.  In both cases the state is as before: no
    client is cached, nothing is printed, and the next call asks the
    store again. *)
Theorem X2_credential_failure self w s :
  _feed_client s = None ->
  (get_credential w (credential_url self) (username self) = Ok None ->
   _get_latest_version self w s
   = (Raise (mkexn Exception_ "Error getting credential"), s))
  /\ (forall e,
        get_credential w (credential_url self) (username self) = Raise e ->
        _get_latest_version self w s = (Raise e, s)).
Proof.
  intros Hn. split; [intros H | intros e H];
    unfold _get_latest_version, _get_package_info, bind, _get_feed_client;
    rewrite Hn; unfold bind, _get_pat, call;
    change ("https://pkgs.dev.azure.com/" ++ organization self ++ "/"
            ++ project self ++ "/_packaging/" ++ feed_name self
            ++ "/pypi/simple/") with (credential_url self);
    rewrite H; reflexivity.
Qed.

Lemma X2_witness :
  let w := Scenario.world (mkdate 2024 3 1) (Ok None) (Ok Scenario.feeds)
             (Ok Scenario.packages) (Ok "1.2.0") WriteOk in
  _get_latest_version Scenario.self w Scenario.old
  = (Raise (mkexn Exception_ "Error getting credential"), Scenario.old).
Proof.
  intros w.
  exact (proj1 (X2_credential_failure Scenario.self w Scenario.old eq_refl)
           eq_refl).
Defined.

Lemma for_package_in_first self before package after :
  name package = package_name self ->
  (forall p, In p before -> name p <> package_name self) ->
  for_package_in self (before ++ package :: after) = Some package.
Proof.
  intros Hp. induction before as [|p before IH]; intros Hb; cbn.
  - rewrite Hp, String.eqb_refl. reflexivity.
  - destruct (String.eqb_spec (name p) (package_name self)) as [E|_].
    + exfalso. apply (Hb p); [left; reflexivity | exact E].
    + apply IH. intros q Hq. apply Hb. right. exact Hq.
Qed.

Lemma for_package_in_none self packages :
  (forall p, In p packages -> name p <> package_name self) ->
  for_package_in self packages = None.
Proof.
  induction packages as [|p packages IH]; intros H; cbn; [reflexivity|].
  destruct (String.eqb_spec (name p) (package_name self)) as [E|_].
  - exfalso. apply (H p); [left; reflexivity | exact E].
  - apply IH. intros q Hq. apply H. right. exact Hq.
Qed.

Lemma for_package_in_sound self packages package :
  for_package_in self packages = Some package ->
  name package = package_name self /\ In package packages.
Proof.
  induction packages as [|p packages IH]; cbn; [discriminate|].
  destruct (String.eqb_spec (name p) (package_name self)) as [E|_].
  - intros [= <-]. split; [exact E | left; reflexivity].
  - intros H. destruct (IH H) as (Hn & Hi). split; [exact Hn | right; exact Hi].
Qed.

Lemma get_package_info_steps self w s c s1 feed_id s2 :
  _get_feed_client self w s = (Ok c, s1) ->
  _get_feed_id self w s1 = (Ok feed_id, s2) ->
  _get_package_info self w s
  = match get_packages w c (project self) feed_id (package_name self) with
    | Ok packages =>
        match for_package_in self packages with
        | Some package => (Ok package, s2)
        | None => (Raise (package_lookup_error self), s2)
        end
    | Raise e => (Raise e, s2)
    end.
Proof.
  intros H1 H2. unfold _get_package_info. unfold bind at 1. rewrite H1.
  unfold bind at 1. rewrite H2. unfold bind, call.
  destruct (get_packages w c (project self) feed_id (package_name self))
    as [packages|e]; [|reflexivity].
  destruct (for_package_in self packages); reflexivity.
Qed.

(** X3: whatever list of packages the name query returns,
    [_get_package_info] returns the first package of the list whose name
    equals the configured package name, so never one that the query
    matched in part only, and raises the lookup error, which names the
    package, when no package of the list (an empty list included) has
    that name. *)
Theorem X3_package_first_exact_match self w s c s1 feed_id s2 packages :
  _get_feed_client self w s = (Ok c, s1) ->
  _get_feed_id self w s1 = (Ok feed_id, s2) ->
  get_packages w c (project self) feed_id (package_name self) = Ok packages ->
  (forall before package after,
      packages = (before ++ package :: after)%list ->
      name package = package_name self ->
      (forall p, In p before -> name p <> package_name self) ->
      _get_package_info self w s = (Ok package, s2))
  /\ ((forall p, In p packages -> name p <> package_name self) ->
      _get_package_info self w s
      = (Raise (mkexn Exception_
                  ("Error getting package info for package name '"
                   ++ package_name self ++ "'")), s2))
  /\ (forall package s',
        _get_package_info self w s = (Ok package, s') ->
        name package = package_name self /\ In package packages).
Proof.
  intros H1 H2 H3.
  pose proof (get_package_info_steps self w s c s1 feed_id s2 H1 H2) as E.
  rewrite H3 in E. split; [|split].
  - intros before package after -> Hn Hb. rewrite E.
    rewrite (for_package_in_first self before package after Hn Hb).
    reflexivity.
  - intros Hnone. rewrite E, (for_package_in_none self packages Hnone).
    reflexivity.
  - intros package s' H. rewrite E in H.
    destruct (for_package_in self packages) as [p|] eqn:F; [|discriminate].
    injection H as <- _. apply (for_package_in_sound self packages p F).
Qed.

Lemma X3_witness :
  let w := Scenario.fine (mkdate 2024 3 1) WriteOk in
  _get_package_info Scenario.self w Scenario.old
  = (Ok (mkPackage "pkg" [mkVersion "1.0.0" false; mkVersion "1.2.0" true]),
     mkState [] (Holds "2024-01-01") (Some (feed_client 7))).
Proof.
  intros w.
  refine (proj1 (X3_package_first_exact_match Scenario.self w Scenario.old
                   (feed_client 7) _ "id-1" _ Scenario.packages
                   eq_refl eq_refl eq_refl)
            [mkPackage "pkg.tools" [mkVersion "3.0" true]]
            (mkPackage "pkg" [mkVersion "1.0.0" false; mkVersion "1.2.0" true])
            [mkPackage "pkg" [mkVersion "8.0" true]] eq_refl eq_refl _).
  intros p [<-|[]]. cbn. discriminate.
Defined.

(** ** Failures of the remote lookup *)

Lemma check_for_update_remote_failure self w s s1 e s2 :
  _should_check self w s = (Ok true, s1) ->
  _get_latest_version self w s1 = (Raise e, s2) ->
  check_for_update self w s = (Ok tt, handled self s2 e).
Proof.
  intros H1 H2.
  rewrite (check_for_update_checks self w s s1 H1),
    (check_body_remote_fails self w s1 e s2 H2).
  reflexivity.
Qed.

Lemma get_feed_id_not_found self w s c s1 feeds :
  _get_feed_client self w s = (Ok c, s1) ->
  get_feeds w c (project self) = Ok feeds ->
  (forall f, In f feeds -> feed_name_of f <> feed_name self) ->
  _get_feed_id self w s = (Raise (feed_lookup_error self), s1).
Proof.
  intros Hc Hf Hn. unfold _get_feed_id, bind, call. rewrite Hc, Hf.
  rewrite (for_feed_in_none self feeds Hn). reflexivity.
Qed.

Lemma should_check_silent self w s r s1 :
  DEBUG self = false -> _should_check self w s = (r, s1) -> s1 = s.
Proof.
  intros Hd H. destruct (throttle_file s) as [e|content] eqn:Hf.
  - destruct (is_FileNotFoundError e) eqn:He.
    + rewrite (should_check_missing self w s e Hf He) in H.
      injection H as _ <-. unfold after_debug. rewrite Hd. reflexivity.
    + rewrite (should_check_escapes self w s e Hf He) in H.
      injection H as _ <-. reflexivity.
  - destruct (Strptime.strptime (Str.strip content)) as [d|] eqn:Hp.
    + rewrite (should_check_parsed self w s content d Hf Hp) in H.
      injection H as _ <-. reflexivity.
    + rewrite (should_check_rejected self w s content Hf Hp) in H.
      injection H as _ <-. unfold after_debug. rewrite Hd. reflexivity.
Qed.

(** X4: when no feed of the service has the configured name, the check
    ends in the handler of [check_for_update].  The lookup of the latest
    version raises the feed lookup error; [check_for_update] returns
    normally, having printed after the lines of [_should_check] the one
    error line, and under [DEBUG] the text of the lookup error, and
    nothing else: the packages are not queried, the installed version is
    not looked up, the throttle file is not written.  What
    [_should_check] printed before are red lines, and none with [DEBUG]
    off: then the whole run adds the one error line to the console. *)
Theorem X4_unknown_feed_is_reported self w s s1 c s2 feeds :
  _should_check self w s = (Ok true, s1) ->
  _get_feed_client self w s1 = (Ok c, s2) ->
  get_feeds w c (project self) = Ok feeds ->
  (forall f, In f feeds -> feed_name_of f <> feed_name self) ->
  _get_latest_version self w s1
  = (Raise (mkexn Exception_
              ("Error getting feed id for feed name '" ++ feed_name self
               ++ "'")), s2)
  /\ check_for_update self w s
     = (Ok tt,
        with_console s2
          (console s1
           ++ error_message self
              :: (if DEBUG self
                  then [error_detail (feed_lookup_error self)] else [])))
  /\ throttle_file (snd (check_for_update self w s)) = throttle_file s
  /\ printed red_line s s1
  /\ (DEBUG self = false ->
      console (snd (check_for_update self w s))
      = (console s ++ [error_message self])%list).
Proof.
  intros H1 H2 H3 H4.
  destruct (should_check_frame self w s _ s1 H1) as (P1 & F1 & _).
  destruct (get_feed_client_result self w s1 c s2 H2) as (Hc & Hk & Hf).
  assert (L : _get_latest_version self w s1
              = (Raise (feed_lookup_error self), s2)).
  { unfold _get_latest_version, _get_package_info. unfold bind at 1 2.
    rewrite H2. unfold bind at 1.
    rewrite (get_feed_id_not_found self w s2 c s2 feeds
               (get_feed_client_cached self w s2 c Hc) H3 H4).
    reflexivity. }
  split; [exact L|].
  rewrite (check_for_update_remote_failure self w s s1 _ s2 H1 L).
  unfold handled. rewrite Hk. split; [reflexivity|].
  split; [cbn; congruence|]. split; [exact P1|].
  intros Hd. rewrite (should_check_silent self w s _ s1 Hd H1), Hd.
  reflexivity.
Qed.

Lemma X4_witness :
  let w := Scenario.world (mkdate 2024 3 1) (Ok (Some "secret"))
             (Ok [mkFeed "Feed" "id-0"; mkFeed "feed-2" "id-2"])
             (Ok Scenario.packages) (Ok "1.0.0") WriteOk in
  check_for_update Scenario.self w Scenario.old
  = (Ok tt,
     mkState [error_message Scenario.self] (Holds "2024-01-01")
       (Some (feed_client 7))).
Proof.
  intros w.
  refine (proj1 (proj2
    (X4_unknown_feed_is_reported Scenario.self w Scenario.old Scenario.old
       (feed_client 7) _ [mkFeed "Feed" "id-0"; mkFeed "feed-2" "id-2"]
       eq_refl eq_refl eq_refl _))).
  intros f [<-|[<-|[]]]; cbn; discriminate.
Defined.

Lemma for_v_in_none vs :
  (forall v, In v vs -> is_latest v = false) -> for_v_in vs = None.
Proof.
  induction vs as [|v vs IH]; intros H; cbn; [reflexivity|].
  rewrite (H v) by (left; reflexivity).
  apply IH. intros u Hu. apply H. right. exact Hu.
Qed.

(** X5: when the package has no version flagged as latest (an empty
    version list included), [_get_latest_version] returns [None] and
    [check_for_update] compares nothing: it still looks the installed
    version up, so that at most the warning of that lookup is printed,
    then returns normally without a report and without writing the
    throttle file; when the registry knows the package, nothing is
    printed after what [_should_check] printed, which are red lines, and
    none with [DEBUG] off: then the console is left as it was. *)
Theorem X5_no_version_flagged_latest self w s s1 package s2 :
  _should_check self w s = (Ok true, s1) ->
  _get_package_info self w s1 = (Ok package, s2) ->
  (forall v, In v (versions package) -> is_latest v = false) ->
  _get_latest_version self w s1 = (Ok None, s2)
  /\ check_for_update self w s = (Ok tt, snd (_get_current_version self w s2))
  /\ (forall v, Distribution_from_name w (package_name self) = Ok v ->
                check_for_update self w s = (Ok tt, s2)
                /\ console s2 = console s1)
  /\ printed red_line s (snd (check_for_update self w s))
  /\ throttle_file (snd (check_for_update self w s)) = throttle_file s
  /\ printed red_line s s1
  /\ (forall v, Distribution_from_name w (package_name self) = Ok v ->
                DEBUG self = false ->
                console (snd (check_for_update self w s)) = console s).
Proof.
  intros H1 H2 H3.
  destruct (should_check_frame self w s _ s1 H1) as (P1 & F1 & _).
  assert (L : _get_latest_version self w s1 = (Ok None, s2)).
  { unfold _get_latest_version, bind, ret. rewrite H2.
    rewrite (for_v_in_none (versions package) H3). reflexivity. }
  destruct (get_latest_version_frame self w s1 _ s2 L) as (C2 & F2).
  assert (E : check_for_update self w s
              = (Ok tt, snd (_get_current_version self w s2))).
  { rewrite (check_for_update_checks self w s s1 H1),
      (check_body_no_latest self w s1 s2 L). reflexivity. }
  split; [exact L|]. split; [exact E|].
  split; [|rewrite E; cbn [snd]; split; [|split; [|split]]].
  - intros v Hv. rewrite E, (get_current_version_found self w s2 v Hv).
    split; [reflexivity | exact C2].
  - destruct (_get_current_version self w s2) as [r s3] eqn:H.
    destruct (get_current_version_frame self w s2 r s3 H) as (P3 & _).
    apply (printed_trans _ s s1); [exact P1|].
    apply (printed_trans _ s1 s2); [apply printed_same_console, C2|].
    exact P3.
  - destruct (_get_current_version self w s2) as [r s3] eqn:H.
    destruct (get_current_version_frame self w s2 r s3 H) as (_ & F3).
    cbn. congruence.
  - exact P1.
  - intros v Hv Hd. rewrite (get_current_version_found self w s2 v Hv).
    cbn [snd]. rewrite C2, (should_check_silent self w s _ s1 Hd H1).
    reflexivity.
Qed.

Lemma X5_witness :
  let w := Scenario.world (mkdate 2024 3 1) (Ok (Some "secret"))
             (Ok Scenario.feeds)
             (Ok [mkPackage "pkg" [mkVersion "1.0.0" false;
                                   mkVersion "1.2.0" false]])
             (Ok "1.0.0") WriteOk in
  check_for_update Scenario.self w Scenario.old
  = (Ok tt, mkState [] (Holds "2024-01-01") (Some (feed_client 7))).
Proof.
  intros w.
  refine (proj1 (proj1 (proj2 (proj2
    (X5_no_version_flagged_latest Scenario.self w Scenario.old Scenario.old
       (mkPackage "pkg" [mkVersion "1.0.0" false; mkVersion "1.2.0" false])
       (mkState [] (Holds "2024-01-01") (Some (feed_client 7)))
       eq_refl eq_refl _))) "1.0.0" eq_refl)).
  intros v [<-|[<-|[]]]; reflexivity.
Defined.

(** ** The throttle *)

(** X6: a throttle file whose stripped content [strptime] reads as a
    date not more than one day before today (today, yesterday, or any
    day in the future) makes [check_for_update] do nothing at all: it
    returns normally and the state is the one it started from, with
    nothing printed, no feed client made and the file unwritten, in
    every world with that clock. *)
Theorem X6_throttled_check_is_a_no_op self w s content d :
  throttle_file s = Holds content ->
  Strptime.strptime (Str.strip content) = Some d ->
  days_between (today w) d <= 1 ->
  check_for_update self w s = (Ok tt, s).
Proof.
  intros Hf Hp Hd. apply check_for_update_skips.
  rewrite (should_check_parsed self w s content d Hf Hp).
  do 2 f_equal. apply Z.ltb_ge. exact Hd.
Qed.

Lemma X6_witness :
  let w := Scenario.world (mkdate 2024 3 1)
             (Raise (mkexn OtherException "keyring locked"))
             (Raise (mkexn OtherException "no network"))
             (Raise (mkexn OtherException "no network"))
             (Raise Sample.not_found) (WriteFailsBeforeOpen Sample.denied) in
  let s := mkState ["earlier output"] (Holds " 2031-12-24 ") None in
  check_for_update Scenario.self w s = (Ok tt, s).
Proof.
  intros w s.
  refine (X6_throttled_check_is_a_no_op Scenario.self w s " 2031-12-24 "
            (mkdate 2031 12 24) eq_refl eq_refl _).
  vm_compute. discriminate.
Defined.

(** X7: the date that [_update_last_checked] writes is read back by
    [_should_check].  After a check that completed its comparison and
    whose write succeeded, the throttle file holds today's date; a
    further [check_for_update] on the same day or on the next day does
    nothing and leaves the state as it is, and from the second day on
    [_should_check] returns true again. *)
Theorem X7_completed_check_throttles_the_next self w s :
  valid_date (today w) = true ->
  comparison_completes self w s = true ->
  write_throttle w = WriteOk ->
  let s' := snd (check_for_update self w s) in
  throttle_file s' = Holds (strftime (today w))
  /\ (forall w', days_between (today w') (today w) <= 1 ->
                 check_for_update self w' s' = (Ok tt, s'))
  /\ (forall w', 2 <= days_between (today w') (today w) ->
                 _should_check self w' s' = (Ok true, s')).
Proof.
  intros V Hc Hw s'.
  destruct (comparison_completes_inv self w s Hc)
    as (s1 & s2 & current & latest & c & l & H1 & H2 & H3 & Pc & Pl).
  destruct (check_for_update_compared self w s s1 s2 current latest c l
              H1 H2 H3 Pc Pl) as (_ & F).
  unfold written in F. rewrite Hw in F. fold s' in F.
  assert (R : forall w',
             _should_check self w' s'
             = (Ok (1 <? days_between (today w') (today w)), s')).
  { intros w'. apply (should_check_parsed self w' s' _ (today w) F).
    rewrite (strip_strftime _ V). apply strptime_strftime, V. }
  split; [exact F|]. split; intros w' Hd.
  - apply check_for_update_skips. rewrite R. do 2 f_equal.
    apply Z.ltb_ge. exact Hd.
  - rewrite R. do 2 f_equal. apply Z.ltb_lt. lia.
Qed.

Lemma X7_witness :
  let w := Scenario.fine (mkdate 2024 2 28) WriteOk in
  let s' := mkState [up_to_date_message Scenario.self "1.2.0"]
              (Holds "2024-02-28") (Some (feed_client 7)) in
  check_for_update Scenario.self (Scenario.fine (mkdate 2024 2 29) WriteOk) s'
  = (Ok tt, s')
  /\ _should_check Scenario.self (Scenario.fine (mkdate 2024 3 1) WriteOk) s'
     = (Ok true, s').
Proof.
  intros w s'.
  destruct (X7_completed_check_throttles_the_next Scenario.self w Scenario.old
              eq_refl eq_refl eq_refl) as (_ & A & B).
  split.
  - apply (A (Scenario.fine (mkdate 2024 2 29) WriteOk)).
    vm_compute. discriminate.
  - apply (B (Scenario.fine (mkdate 2024 3 1) WriteOk)).
    vm_compute. discriminate.
Defined.

Lemma should_check_by_file self w s s' :
  throttle_file s' = throttle_file s ->
  fst (_should_check self w s') = fst (_should_check self w s).
Proof.
  intros E. destruct (throttle_file s) as [e|content] eqn:Hf.
  - destruct (is_FileNotFoundError e) eqn:He.
    + rewrite (should_check_missing self w s e Hf He),
        (should_check_missing self w s' e E He). reflexivity.
    + rewrite (should_check_escapes self w s e Hf He),
        (should_check_escapes self w s' e E He). reflexivity.
  - destruct (Strptime.strptime (Str.strip content)) as [d|] eqn:Hp.
    + rewrite (should_check_parsed self w s content d Hf Hp),
        (should_check_parsed self w s' content d E Hp). reflexivity.
    + rewrite (should_check_rejected self w s content Hf Hp),
        (should_check_rejected self w s' content E Hp). reflexivity.
Qed.

(** What a check that does not complete its comparison leaves behind. *)
Lemma check_for_update_incomplete self w s :
  comparison_completes self w s = false ->
  printed red_line s (snd (check_for_update self w s))
  /\ throttle_file (snd (check_for_update self w s)) = throttle_file s.
Proof.
  unfold comparison_completes.
  destruct (_should_check self w s) as [[[|]|e] s1] eqn:H1;
    destruct (should_check_frame self w s _ s1 H1) as (P1 & F1 & _).
  - destruct (_get_latest_version self w s1) as [[[latest|]|e] s2] eqn:H2;
      destruct (get_latest_version_frame self w s1 _ s2 H2) as (C2 & F2);
      assert (P2 : printed red_line s s2)
        by (apply (printed_trans _ s s1); [exact P1|];
            apply printed_same_console, C2).
    + destruct (Distribution_from_name w (package_name self))
        as [current|e] eqn:H3.
      * destruct (Version.parse current) as [c|] eqn:Pc;
          [destruct (Version.parse latest) as [l|] eqn:Pl|].
        -- discriminate.
        -- intros _.
           rewrite (check_for_update_checks self w s s1 H1),
             (check_body_invalid_latest self w s1 latest s2 current c H2 H3
                Pc Pl).
           cbn [snd]. split; [|cbn; congruence].
           apply (printed_trans _ s s2); [exact P2 | apply printed_handled].
        -- intros _.
           rewrite (check_for_update_checks self w s s1 H1),
             (check_body_invalid_current self w s1 latest s2 current H2 H3 Pc).
           cbn [snd]. split; [|cbn; congruence].
           apply (printed_trans _ s s2); [exact P2 | apply printed_handled].
      * intros _.
        rewrite (check_for_update_checks self w s s1 H1),
          (check_body_no_current self w s1 _ s2 e H2 H3).
        cbn [snd]. split; [|cbn; congruence].
        apply (printed_trans _ s s2); [exact P2 | apply printed_warned].
    + intros _.
      rewrite (check_for_update_checks self w s s1 H1),
        (check_body_no_latest self w s1 s2 H2).
      destruct (_get_current_version self w s2) as [r s3] eqn:H3.
      destruct (get_current_version_frame self w s2 r s3 H3) as (P3 & F3).
      cbn [snd]. split; [|congruence].
      apply (printed_trans _ s s2); [exact P2 | exact P3].
    + intros _.
      rewrite (check_for_update_checks self w s s1 H1),
        (check_body_remote_fails self w s1 e s2 H2).
      cbn [snd]. split; [|cbn; congruence].
      apply (printed_trans _ s s2); [exact P2 | apply printed_handled].
  - intros _. rewrite (check_for_update_skips self w s s1 H1).
    split; [exact P1 | exact F1].
  - intros _. rewrite (check_for_update_escapes self w s e s1 H1).
    split; [exact P1 | exact F1].
Qed.

(** X8: a check that does not complete its comparison (skipped, failed
    at the service, a version unresolved or unparseable) prints nothing
    but lines that open in red, so none that reports a comparison, and
    it is not counted by the throttle: on the state it leaves,
    [_should_check] decides as it did before, so that a failed check is
    tried again at the next run. *)
Theorem X8_incomplete_check_is_not_throttled self w s :
  comparison_completes self w s = false ->
  let s' := snd (check_for_update self w s) in
  printed (fun line => red_line line /\ ~ comparison_line self line) s s'
  /\ fst (_should_check self w s') = fst (_should_check self w s).
Proof.
  intros H s'.
  destruct (check_for_update_incomplete self w s H) as (P & F). split.
  - apply (printed_weaken red_line); [|exact P].
    intros line Hr. split; [exact Hr | apply red_line_not_comparison, Hr].
  - apply should_check_by_file, F.
Qed.

Lemma X8_witness :
  let w := Scenario.world (mkdate 2024 3 1) (Ok (Some "secret"))
             (Raise (mkexn OtherException "no network"))
             (Ok Scenario.packages) (Ok "1.0.0") WriteOk in
  fst (_should_check Scenario.self w
         (snd (check_for_update Scenario.self w Scenario.old)))
  = Ok true.
Proof.
  intros w.
  exact (proj2 (X8_incomplete_check_is_not_throttled Scenario.self w
                  Scenario.old eq_refl)).
Defined.

(** ** The report and the write *)

Lemma str_compare_refl s : Str.compare s s = Eq.
Proof.
  induction s as [|c s IH]; cbn; [reflexivity|].
  rewrite N.compare_refl. exact IH.
Qed.

Lemma list_compare_refl {A} (cmp : A -> A -> comparison) l :
  (forall a, cmp a a = Eq) -> Version.list_compare cmp l l = Eq.
Proof.
  intros H. induction l as [|a l IH]; cbn; [reflexivity|].
  rewrite H. exact IH.
Qed.

Lemma ext_compare_refl {A} (cmp : A -> A -> comparison) x :
  (forall a, cmp a a = Eq) -> Version.ext_compare cmp x x = Eq.
Proof. intros H. destruct x; cbn; auto. Qed.

Lemma key_compare_refl k : Version.key_compare k k = Eq.
Proof.
  unfold Version.key_compare.
  rewrite Z.compare_refl, (list_compare_refl Z.compare) by apply Z.compare_refl.
  rewrite (ext_compare_refl Version.pre_compare).
  2:{ intros [l n]. unfold Version.pre_compare. cbn.
      rewrite !Z.compare_refl. reflexivity. }
  rewrite !(ext_compare_refl Z.compare) by apply Z.compare_refl.
  rewrite (ext_compare_refl (Version.list_compare Version.local_part_compare)).
  - reflexivity.
  - intros l. apply list_compare_refl. intros [n|t]; cbn.
    + apply Z.compare_refl.
    + apply str_compare_refl.
Qed.

(** A version is at least itself. *)
Lemma version_ge_refl v : Version.ge v v = true.
Proof. unfold Version.ge. rewrite key_compare_refl. reflexivity. Qed.

(** X9: when the feed's latest version is, as a string, the installed
    version, and the parser takes it, [check_for_update] reports the
    package as up to date: it never advises an upgrade to the version
    that is installed. *)
Theorem X9_same_version_is_up_to_date self w s s1 s2 current v :
  _should_check self w s = (Ok true, s1) ->
  _get_latest_version self w s1 = (Ok (Some current), s2) ->
  Distribution_from_name w (package_name self) = Ok current ->
  Version.parse current = Some v ->
  reports self w s s2 [up_to_date_message self current].
Proof.
  intros H1 H2 H3 P.
  destruct (check_for_update_compared self w s s1 s2 current current v v
              H1 H2 H3 P P) as (R & _).
  unfold report in R. rewrite version_ge_refl in R. exact R.
Qed.

Lemma X9_witness :
  reports Scenario.self (Scenario.fine (mkdate 2024 3 1) WriteOk) Scenario.old
    (mkState [] (Holds "2024-01-01") (Some (feed_client 7)))
    [up_to_date_message Scenario.self "1.2.0"].
Proof.
  exact (X9_same_version_is_up_to_date Scenario.self
           (Scenario.fine (mkdate 2024 3 1) WriteOk) Scenario.old Scenario.old
           (mkState [] (Holds "2024-01-01") (Some (feed_client 7)))
           "1.2.0" (Version.mk 0 [1; 2; 0] None None None None)
           eq_refl eq_refl eq_refl ltac:(vm_compute; reflexivity)).
Defined.

(** X10: when the comparison completed and [makedirs] or [open] refuses
    the write of the date, the report stays on the console and
    [check_for_update] returns normally.  An operating-system error is
    caught by [_update_last_checked], which prints its warning, and
    under [DEBUG] the error; any other exception passes it and is
    reported by the handler of [check_for_update] as an error of the
    check.  Either way the throttle file is as it was. *)
Theorem X10_refused_write_keeps_the_report self w s s1 s2 current latest c l e :
  _should_check self w s = (Ok true, s1) ->
  _get_latest_version self w s1 = (Ok (Some latest), s2) ->
  Distribution_from_name w (package_name self) = Ok current ->
  Version.parse current = Some c ->
  Version.parse latest = Some l ->
  write_throttle w = WriteFailsBeforeOpen e ->
  check_for_update self w s
  = (Ok tt,
     with_console s2
       (console s2 ++ report self current latest c l
        ++ (if is_IOError e
            then last_checked_warning
                 :: (if DEBUG self then [debug_line e] else [])
            else error_message self
                 :: (if DEBUG self then [error_detail e] else []))))
  /\ throttle_file (snd (check_for_update self w s)) = throttle_file s.
Proof.
  intros H1 H2 H3 Pc Pl Hw.
  destruct (should_check_frame self w s _ s1 H1) as (_ & F1 & _).
  destruct (get_latest_version_frame self w s1 _ s2 H2) as (_ & F2).
  assert (E : check_for_update self w s
              = (Ok tt,
                 with_console s2
                   (console s2 ++ report self current latest c l
                    ++ (if is_IOError e
                        then last_checked_warning
                             :: (if DEBUG self then [debug_line e] else [])
                        else error_message self
                             :: (if DEBUG self then [error_detail e]
                                 else [])))%list)).
  { rewrite (check_for_update_checks self w s s1 H1),
      (check_body_compares self w s1 latest s2 current c l H2 H3 Pc Pl).
    unfold _update_last_checked, try_except, write_throttle_file.
    rewrite Hw. destruct (is_IOError e).
    - unfold bind, print, when, with_console.
      destruct (DEBUG self); cbn; rewrite <- !app_assoc; reflexivity.
    - unfold handled, with_console.
      destruct (DEBUG self); cbn; rewrite <- !app_assoc; reflexivity. }
  split; [exact E|]. rewrite E. cbn. congruence.
Qed.

Lemma X10_witness :
  let w := Scenario.fine (mkdate 2024 3 1)
             (WriteFailsBeforeOpen Scenario.disk_full) in
  check_for_update Scenario.self w Scenario.old
  = (Ok tt,
     mkState [up_to_date_message Scenario.self "1.2.0"; last_checked_warning]
       (Holds "2024-01-01") (Some (feed_client 7))).
Proof.
  intros w.
  exact (proj1
    (X10_refused_write_keeps_the_report Scenario.self w Scenario.old
       Scenario.old (mkState [] (Holds "2024-01-01") (Some (feed_client 7)))
       "1.2.0" "1.2.0" (Version.mk 0 [1; 2; 0] None None None None)
       (Version.mk 0 [1; 2; 0] None None None None) Scenario.disk_full
       eq_refl eq_refl eq_refl ltac:(vm_compute; reflexivity)
       ltac:(vm_compute; reflexivity) eq_refl)).
Defined.

Lemma append_empty_r s : s ++ "" = s.
Proof. induction s as [|c s IH]; cbn; [reflexivity | f_equal; exact IH]. Qed.

(** X11: a throttle file that holds a date written as YYYY-MM-DD and
    then more text without white space, such as a time of day, is
    refused by [strptime] as a whole, and [_should_check] returns true
    however recent the date. *)
Theorem X11_date_with_trailing_text self w s d tail :
  valid_date d = true ->
  no_space tail = true -> tail <> "" ->
  throttle_file s = Holds (strftime d ++ tail) ->
  Strptime.strptime (Str.strip (strftime d ++ tail)) = None
  /\ fst (_should_check self w s) = Ok true.
Proof.
  intros V Hn Ht Hf.
  assert (E : Str.strip (strftime d ++ tail) = strftime d ++ tail).
  { pose proof (strip_surrounded "" (strftime d ++ tail) "" eq_refl eq_refl)
      as H.
    cbn [append] in H. rewrite append_empty_r in H. apply H.
    rewrite no_space_app, (no_space_strftime d V), Hn. reflexivity. }
  assert (P : Strptime.strptime (Str.strip (strftime d ++ tail)) = None).
  { rewrite E. destruct tail as [|c rest]; [contradiction|].
    apply strptime_trailing, V. }
  split; [exact P|].
  rewrite (should_check_rejected self w s _ Hf P). reflexivity.
Qed.

Lemma X11_witness :
  fst (_should_check Scenario.self (Scenario.fine (mkdate 2024 3 1) WriteOk)
         (mkState [] (Holds "2024-03-01T08:30") None))
  = Ok true.
Proof.
  refine (proj2 (X11_date_with_trailing_text Scenario.self
                   (Scenario.fine (mkdate 2024 3 1) WriteOk)
                   (mkState [] (Holds "2024-03-01T08:30") None)
                   (mkdate 2024 3 1) "T08:30" eq_refl eq_refl _ eq_refl)).
  discriminate.
Defined.

(** ** The cached client across a check *)

Lemma get_latest_version_cached self w s c :
  _feed_client s = Some c ->
  _get_latest_version self w s = (lookup_with self w c, s).
Proof.
  intros Hc.
  unfold _get_latest_version, _get_package_info, _get_feed_id, bind,
    _get_feed_client, lookup_with, call, ret, raise.
  cbn beta. repeat (rewrite Hc; cbn beta iota).
  destruct (get_feeds w c (project self)) as [feeds|e]; [|reflexivity].
  destruct (for_feed_in self feeds) as [i|]; [|reflexivity].
  destruct (get_packages w c (project self) i (package_name self))
    as [ps|e]; [|reflexivity].
  destruct (for_package_in self ps); reflexivity.
Qed.

Lemma get_latest_version_keeps_client self w s c :
  _feed_client s = Some c ->
  _feed_client (snd (_get_latest_version self w s)) = Some c.
Proof.
  intros Hc. rewrite (get_latest_version_cached self w s c Hc). exact Hc.
Qed.

Lemma get_latest_version_any_store self w store connection s c :
  _feed_client s = Some c ->
  _get_latest_version self (with_store w store connection) s
  = _get_latest_version self w s.
Proof.
  intros Hc. rewrite !(get_latest_version_cached _ _ s c Hc). reflexivity.
Qed.

Lemma check_body_any_store self w store connection s c :
  _feed_client s = Some c ->
  check_body self (with_store w store connection) s = check_body self w s.
Proof.
  intros Hc. unfold check_body. unfold bind at 1 5.
  rewrite (get_latest_version_any_store self w store connection s c Hc).
  reflexivity.
Qed.

Lemma update_last_checked_client self w s :
  _feed_client (snd (_update_last_checked self w s)) = _feed_client s.
Proof.
  unfold _update_last_checked, try_except, write_throttle_file.
  destruct (write_throttle w) as [|e|e]; [reflexivity| |];
    (destruct (is_IOError e); [|reflexivity]);
    unfold bind, print, when; destruct (DEBUG self); reflexivity.
Qed.

Lemma check_body_keeps_client self w s c :
  _feed_client s = Some c ->
  _feed_client (snd (check_body self w s)) = Some c.
Proof.
  intros Hc. unfold check_body. unfold bind at 1.
  pose proof (get_latest_version_keeps_client self w s c Hc) as K.
  destruct (_get_latest_version self w s) as [[latest|e] s2];
    cbn [snd] in K; [|exact K].
  unfold bind at 1.
  assert (K3 : forall r s3, _get_current_version self w s2 = (r, s3) ->
                            _feed_client s3 = Some c).
  { intros r s3.
    destruct (Distribution_from_name w (package_name self)) as [v|e] eqn:E.
    - rewrite (get_current_version_found self w s2 v E). intros [= _ <-].
      exact K.
    - rewrite (get_current_version_unknown self w s2 e E). intros [= _ <-].
      exact K. }
  destruct (_get_current_version self w s2) as [[current|e] s3] eqn:H3;
    [|exact (K3 _ _ eq_refl)].
  specialize (K3 _ _ eq_refl).
  destruct current as [current|]; [|exact K3].
  destruct latest as [latest|]; [|exact K3].
  unfold bind, version_parse, ret, raise.
  destruct (Version.parse current) as [vc|]; [|exact K3].
  destruct (Version.parse latest) as [vl|]; [|exact K3].
  destruct (Version.ge vc vl); cbn; rewrite update_last_checked_client;
    exact K3.
Qed.

(** X12: on an instance whose feed client is cached, a whole
    [check_for_update] never goes back to the credential store or to the
    connection: it ends in the same result and the same state whatever
    those two would answer, and the client is still the cached one
    afterwards. *)
Theorem X12_cached_client_spares_the_store self w s c :
  _feed_client s = Some c ->
  (forall store connection,
      check_for_update self (with_store w store connection) s
      = check_for_update self w s)
  /\ (forall s', (exists r, check_for_update self w s = (r, s')) ->
                 _feed_client s' = Some c).
Proof.
  intros Hc. split.
  - intros store connection. unfold check_for_update. unfold bind.
    change (_should_check self (with_store w store connection) s)
      with (_should_check self w s).
    destruct (_should_check self w s) as [[[|]|e] s1] eqn:H1;
      [|reflexivity..].
    destruct (should_check_frame self w s _ s1 H1) as (_ & _ & K1).
    unfold try_except.
    rewrite (check_body_any_store self w store connection s1 c)
      by congruence.
    reflexivity.
  - intros s' (r & E).
    destruct (_should_check self w s) as [[[|]|e] s1] eqn:H1;
      destruct (should_check_frame self w s _ s1 H1) as (_ & _ & K1).
    + rewrite (check_for_update_checks self w s s1 H1) in E.
      pose proof (check_body_keeps_client self w s1 c ltac:(congruence)) as K.
      destruct (check_body self w s1) as [[[]|e] s2]; cbn [snd] in K;
        injection E as _ <-; [exact K|].
      unfold handled. cbn. exact K.
    + rewrite (check_for_update_skips self w s s1 H1) in E.
      injection E as _ <-. congruence.
    + rewrite (check_for_update_escapes self w s e s1 H1) in E.
      injection E as _ <-. congruence.
Qed.

Lemma X12_witness :
  let s := mkState [] (Holds "2024-01-01") (Some (feed_client 7)) in
  let w := Scenario.fine (mkdate 2024 3 1) WriteOk in
  check_for_update Scenario.self
    (with_store w (fun _ _ => Raise (mkexn OtherException "keyring locked"))
       (fun _ _ _ => Raise (mkexn OtherException "no network"))) s
  = (Ok tt,
     mkState [up_to_date_message Scenario.self "1.2.0"] (Holds "2024-03-01")
       (Some (feed_client 7))).
Proof.
  intros s w.
  rewrite (proj1 (X12_cached_client_spares_the_store Scenario.self w s
                    (feed_client 7) eq_refl)).
  vm_compute. reflexivity.
Defined.

(** ** The [DEBUG] flag *)

Lemma alike_ret {A} (a : A) : alike (ret a) (ret a).
Proof. intros s s' R. split; [reflexivity | exact R]. Qed.

Lemma alike_raise {A} (e : exn) : alike (@raise A e) (raise e).
Proof. intros s s' R. split; [reflexivity | exact R]. Qed.

Lemma alike_call {A} (r : result A) : alike (call r) (call r).
Proof. intros s s' R. split; [reflexivity | exact R]. Qed.

Lemma alike_print l l' : alike (print l) (print l').
Proof. intros s s' R. split; [reflexivity | exact R]. Qed.

Lemma alike_when_print b b' l l' :
  alike (when b (print l)) (when b' (print l')).
Proof. intros s s' R. destruct b, b'; split; try reflexivity; exact R. Qed.

Lemma alike_bind {A B} (m m' : M A) (k k' : A -> M B) :
  alike m m' -> (forall a, alike (k a) (k' a)) ->
  alike (bind m k) (bind m' k').
Proof.
  intros Hm Hk s s' R. unfold bind. destruct (Hm s s' R) as [E R1].
  destruct (m s) as [[a|e] s1], (m' s') as [[a'|e'] s1']; cbn [fst snd] in *;
    try discriminate E.
  - injection E as <-. apply Hk, R1.
  - injection E as <-. split; [reflexivity | exact R1].
Qed.

Lemma alike_try {A} (body body' : M A) catches (h h' : exn -> M A) :
  alike body body' -> (forall e, alike (h e) (h' e)) ->
  alike (try_except body catches h) (try_except body' catches h').
Proof.
  intros Hb Hh s s' R. unfold try_except. destruct (Hb s s' R) as [E R1].
  destruct (body s) as [[a|e] s1], (body' s') as [[a'|e'] s1'];
    cbn [fst snd] in *; try discriminate E.
  - injection E as <-. split; [reflexivity | exact R1].
  - injection E as <-. destruct (catches e).
    + apply Hh, R1.
    + split; [reflexivity | exact R1].
Qed.

Lemma alike_bind_raise {A B} (e : exn) (k k' : A -> M B) :
  alike (bind (raise e) k) (bind (raise e) k').
Proof. intros s s' R. split; [reflexivity | exact R]. Qed.

Create HintDb alike.
#[local] Hint Resolve alike_ret alike_raise alike_call alike_print
  alike_when_print : alike.

Lemma alike_get_feed_client self b w :
  alike (_get_feed_client self w) (_get_feed_client (with_debug self b) w).
Proof.
  intros s s' [Rf Rc]. unfold _get_feed_client.
  rewrite <- Rc. destruct (_feed_client s) as [c|] eqn:E.
  - split; [reflexivity | split; cbn; congruence].
  - unfold bind, _get_pat, call. cbn [organization project feed_name username
                                        with_debug].
    destruct (get_credential w _ (username self)) as [[pat|]|e]; cbn;
      try (split; [reflexivity | split; cbn; congruence]).
    destruct (connect w _ _ pat) as [c|e]; cbn;
      (split; [reflexivity | split; cbn; congruence]).
Qed.

Lemma alike_get_latest_version self b w :
  alike (_get_latest_version self w)
        (_get_latest_version (with_debug self b) w).
Proof.
  unfold _get_latest_version, _get_package_info, _get_feed_id.
  apply alike_bind; [|auto with alike].
  apply alike_bind; [apply alike_get_feed_client|]. intros c.
  apply alike_bind.
  - apply alike_bind; [apply alike_get_feed_client|]. intros c'.
    apply alike_bind; [apply alike_call|]. intros feeds.
    change (for_feed_in (with_debug self b) feeds)
      with (for_feed_in self feeds).
    destruct (for_feed_in self feeds); auto with alike.
  - intros i. apply alike_bind; [apply alike_call|]. intros ps.
    change (for_package_in (with_debug self b) ps)
      with (for_package_in self ps).
    destruct (for_package_in self ps); auto with alike.
Qed.

Lemma alike_get_current_version self b w :
  alike (_get_current_version self w)
        (_get_current_version (with_debug self b) w).
Proof.
  unfold _get_current_version. apply alike_try.
  - apply alike_bind; auto with alike.
  - intros e. apply alike_bind; [apply alike_print|]. intros _.
    apply alike_bind; auto with alike.
Qed.

Lemma alike_should_check self b w :
  alike (_should_check self w) (_should_check (with_debug self b) w).
Proof.
  unfold _should_check. apply alike_try.
  - apply alike_bind.
    + intros s s' [Rf Rc]. unfold read_throttle. rewrite <- Rf.
      destruct (throttle_file s) eqn:E;
        (split; [reflexivity | split; cbn; congruence]).
    + intros data. apply alike_try.
      * apply alike_bind; [|auto with alike].
        unfold strptime. destruct (Strptime.strptime (Str.strip data));
          auto with alike.
      * intros e. apply alike_bind; auto with alike.
  - intros e. apply alike_bind; auto with alike.
Qed.

Lemma alike_update_last_checked self b w :
  alike (_update_last_checked self w)
        (_update_last_checked (with_debug self b) w).
Proof.
  unfold _update_last_checked. apply alike_try.
  - intros s s' [Rf Rc]. unfold write_throttle_file.
    destruct (write_throttle w);
      (split; [reflexivity | split; cbn; congruence]).
  - intros e. apply alike_bind; auto with alike.
Qed.

Lemma alike_check_body self b w :
  alike (check_body self w) (check_body (with_debug self b) w).
Proof.
  unfold check_body.
  apply alike_bind; [apply alike_get_latest_version|]. intros latest.
  apply alike_bind; [apply alike_get_current_version|]. intros current.
  destruct current as [current|]; [|auto with alike].
  destruct latest as [latest|]; [|auto with alike].
  unfold version_parse.
  destruct (Version.parse current) as [c|]; [|apply alike_bind_raise].
  apply alike_bind; [apply alike_ret|]. intros c'.
  destruct (Version.parse latest) as [l|]; [|apply alike_bind_raise].
  apply alike_bind; [apply alike_ret|]. intros l'.
  apply alike_bind; [|intros _; apply alike_update_last_checked].
  destruct (Version.ge c' l'); [apply alike_print|].
  apply alike_bind; [apply alike_print|]. intros _. apply alike_print.
Qed.

(** X13: the [DEBUG] flag changes the console and nothing else: with
    the flag set either way, [check_for_update] returns or raises just
    the same, and leaves the same throttle file and the same cached
    client. *)
Theorem X13_debug_changes_the_console_only self debug w s :
  fst (check_for_update (with_debug self debug) w s)
  = fst (check_for_update self w s)
  /\ throttle_file (snd (check_for_update (with_debug self debug) w s))
     = throttle_file (snd (check_for_update self w s))
  /\ _feed_client (snd (check_for_update (with_debug self debug) w s))
     = _feed_client (snd (check_for_update self w s)).
Proof.
  assert (H : alike (check_for_update self w)
                    (check_for_update (with_debug self debug) w)).
  { unfold check_for_update.
    apply alike_bind; [apply alike_should_check|]. intros [|];
      [|apply alike_ret].
    apply alike_try; [apply alike_check_body|].
    intros e. apply alike_bind; auto with alike. }
  destruct (H s s (conj eq_refl eq_refl)) as (E & Rf & Rc).
  repeat split; symmetry; assumption.
Qed.

